(** * paybin-js: request hashing, key resolution, signing and webhook checks

    A shallow embedding of the TypeScript SDK: [utils/hash.ts],
    [utils/webhook.ts], [client.ts], [api/deposit.ts], [api/withdraw.ts],
    [api/balance.ts] and [paybin.ts], together with the parts of the
    JavaScript runtime and of CryptoJS that these files call (string
    coercion of numbers, truthiness, MD5, HMAC-SHA256).

    Conventions.
    - A JavaScript string is a Rocq [string]: the sequence of bytes of its
      UTF-8 encoding, which is what CryptoJS hashes ([Utf8.parse]).
    - A JavaScript [number] is a binary64 float ([PrimFloat.float]).
    - A 32-bit word is a [Z] in [0, 2^32); wrap-around is written out.
    - [x?: T] is [option T]; the truthiness tests of the source are kept. *)

From Stdlib Require Import ZArith List String Ascii Bool Lia Floats.
From Stdlib Require Import DecimalString DecimalPos DecimalFacts.
From Stdlib Require Import QArith Qabs Qpower Lqa.
Import ListNotations.

Local Open Scope Z_scope.

(* ===================================================================== *)
(** ** 32-bit words and byte strings *)
(* ===================================================================== *)

Module Word32.

Definition modulus : Z := 4294967296.

Definition wrap (x : Z) : Z := x mod modulus.

Definition add (x y : Z) : Z := wrap (x + y).

(** [~x] on 32 bits. *)
Definition not (x : Z) : Z := Z.lxor x 4294967295.

(** [(x << n) | (x >>> (32 - n))]. *)
Definition rotl (x n : Z) : Z :=
  Z.lor (wrap (Z.shiftl x n)) (Z.shiftr x (32 - n)).

(** [(x >>> n) | (x << (32 - n))]. *)
Definition rotr (x n : Z) : Z :=
  Z.lor (Z.shiftr x n) (wrap (Z.shiftl x (32 - n))).

Definition byte_of (x i : Z) : Z := Z.shiftr x (8 * i) mod 256.

Definition bytes_le (x : Z) : list Z :=
  [byte_of x 0; byte_of x 1; byte_of x 2; byte_of x 3].

Definition bytes_be (x : Z) : list Z :=
  [byte_of x 3; byte_of x 2; byte_of x 1; byte_of x 0].

Definition of_bytes_le (b0 b1 b2 b3 : Z) : Z :=
  b0 + 256 * (b1 + 256 * (b2 + 256 * b3)).

Definition of_bytes_be (b0 b1 b2 b3 : Z) : Z :=
  of_bytes_le b3 b2 b1 b0.

(** Four bytes at a time; a short tail is completed with zero bytes. *)
Fixpoint words (conv : Z -> Z -> Z -> Z -> Z) (l : list Z) : list Z :=
  match l with
  | b0 :: b1 :: b2 :: b3 :: rest => conv b0 b1 b2 b3 :: words conv rest
  | [] => []
  | [b0] => [conv b0 0 0 0]
  | [b0; b1] => [conv b0 b1 0 0]
  | [b0; b1; b2] => [conv b0 b1 b2 0]
  end.

End Word32.

Module Bytes.

Definition of_string (s : string) : list Z :=
  map (fun c => Z.of_N (N_of_ascii c)) (list_ascii_of_string s).

Definition hex_table : list ascii :=
  list_ascii_of_string "0123456789abcdef".

Definition hex_digit (n : Z) : ascii :=
  nth (Z.to_nat n) hex_table "0"%char.

(** [(bite >>> 4).toString(16)] then [(bite & 0x0f).toString(16)]. *)
Definition hex_byte (b : Z) : string :=
  String (hex_digit (Z.shiftr b 4 mod 16))
    (String (hex_digit (b mod 16)) EmptyString).

Fixpoint hex (l : list Z) : string :=
  match l with
  | [] => EmptyString
  | b :: rest => (hex_byte b ++ hex rest)%string
  end.

(** Fixed-size blocks; the input length is a multiple of [n] where used. *)
Fixpoint chunks_fuel (fuel : nat) (n : nat) (l : list Z) : list (list Z) :=
  match fuel with
  | O => []
  | S fuel' =>
      match l with
      | [] => []
      | _ => firstn n l :: chunks_fuel fuel' n (skipn n l)
      end
  end.

Definition chunks (n : nat) (l : list Z) : list (list Z) :=
  chunks_fuel (List.length l) n l.

(** Number of zero bytes after the 0x80 marker so that, with the eight
    length bytes, the padded message fills whole 64-byte blocks. *)
Definition pad_zeros (len : Z) : nat :=
  Z.to_nat ((55 - len) mod 64).

Definition is_lower_hex (c : ascii) : bool :=
  existsb (Ascii.eqb c) hex_table.

Fixpoint all_lower_hex (s : string) : bool :=
  match s with
  | EmptyString => true
  | String c rest => is_lower_hex c && all_lower_hex rest
  end.

End Bytes.

(* ===================================================================== *)
(** ** JavaScript values: numbers, strings, truthiness *)
(* ===================================================================== *)

Module Js.

Local Open Scope string_scope.

Definition number : Type := float.

(** *** ToBoolean *)

(** A number is falsy when it is [+0], [-0] or [NaN]. *)
Definition truthy_number (x : number) : bool :=
  negb (PrimFloat.is_zero x || PrimFloat.is_nan x).

(** A string is falsy when it is empty. *)
Definition truthy_string (s : string) : bool :=
  match s with
  | EmptyString => false
  | String _ _ => true
  end.

(** [undefined] is falsy; a present value has the truthiness of its type. *)
Definition truthy_opt {A : Type} (truthy : A -> bool) (x : option A) : bool :=
  match x with
  | None => false
  | Some a => truthy a
  end.

(** [x || d] on an optional string. *)
Definition or_else (x : option string) (d : string) : string :=
  match x with
  | Some s => if truthy_string s then s else d
  | None => d
  end.

(** [x === y] and [x !== y] on numbers (IEEE equality: NaN differs from
    itself, [+0] equals [-0]). *)
Definition strict_eq (x y : number) : bool := PrimFloat.eqb x y.
Definition strict_neq (x y : number) : bool := negb (strict_eq x y).

(** [s.startsWith(p)]. *)
Definition startsWith (s p : string) : bool := String.prefix p s.

(** *** Number::toString (ECMA-262, radix 10)

    For a finite non-zero [x], integers [n], [k], [s] are chosen with
    [k >= 1], [10^(k-1) <= s < 10^k], such that [s * 10^(n-k)] converts
    back to [x], with [k] as small as possible and, among the candidates,
    [s * 10^(n-k)] closest to [x]. Below, [p] stands for [n - k]. *)

Local Open Scope Z_scope.

(** The reals that round to [m * 2^e], in units of [2^(e-2)]: the
    endpoints are the midpoints to the neighbouring floats. The lower
    neighbour is twice as close when [m] is a power of two. The endpoints
    themselves round to [m * 2^e] when [m] is even (ties to even). *)
Record rounding_interval : Type := {
  lo : Z;
  mid : Z;
  hi : Z;
  closed : bool;
  unit_exp : Z
}.

Definition interval_of (m : positive) (e : Z) : rounding_interval :=
  let M := Z.pos m in
  let at_power := (M =? 2 ^ 52) && (-1074 <? e) in
  {| lo := if at_power then 4 * M - 1 else 4 * M - 2;
     mid := 4 * M;
     hi := 4 * M + 2;
     closed := Z.even M;
     unit_exp := e - 2 |}.

(** [s * 10^p] compared with [v * 2^unit_exp] is [s * coeff] compared with
    [v * scale]. *)
Definition coeff (I : rounding_interval) (p : Z) : Z :=
  (if 0 <=? p then 10 ^ p else 1)
  * (if unit_exp I <? 0 then 2 ^ (- unit_exp I) else 1).

Definition scale (I : rounding_interval) (p : Z) : Z :=
  (if p <? 0 then 10 ^ (- p) else 1)
  * (if 0 <=? unit_exp I then 2 ^ unit_exp I else 1).

Definition div_ceil (a b : Z) : Z := (a + b - 1) / b.

Definition round_half_even (a b : Z) : Z :=
  let q := a / b in
  let r := a mod b in
  if 2 * r <? b then q
  else if b <? 2 * r then q + 1
  else if Z.even q then q else q + 1.

Definition clamp (x l h : Z) : Z := Z.max l (Z.min x h).

(** The integer [s] for which [s * 10^p] rounds to the float and is
    closest to it, if there is one. *)
Definition candidate (I : rounding_interval) (p : Z) : option positive :=
  let c := coeff I p in
  let r := scale I p in
  let s_lo := if closed I then div_ceil (lo I * r) c else lo I * r / c + 1 in
  let s_hi := if closed I then hi I * r / c else div_ceil (hi I * r) c - 1 in
  if s_lo <=? s_hi
  then Some (Z.to_pos (clamp (round_half_even (mid I * r) c) s_lo s_hi))
  else None.

(** The largest [p] with a candidate gives the fewest digits. The search
    goes downwards from [start]. [m * 2^e] itself is a candidate at the
    exponent [min e 0], so the search ends there at the latest; [exact] is
    that decimal, returned should the fuel run out first. *)
Fixpoint search (fuel : nat) (I : rounding_interval) (p : Z)
  (exact : positive * Z) : positive * Z :=
  match fuel with
  | O => exact
  | S fuel' =>
      match candidate I p with
      | Some s => (s, p)
      | None => search fuel' I (p - 1) exact
      end
  end.

Definition exact_decimal (m : positive) (e : Z) : positive * Z :=
  if e <? 0 then (Z.to_pos (Z.pos m * 5 ^ (- e)), e)
  else (Z.to_pos (Z.pos m * 2 ^ e), 0).

(** An exponent no candidate exceeds: a candidate is below [2^(e+54)]
    for a mantissa of at most 53 bits, and [log10 2 < 0.30103]. *)
Definition start (e : Z) : Z := (e + 54) * 30103 / 100000 + 1.

Definition shortest (m : positive) (e : Z) : positive * Z :=
  search 1400 (interval_of m e) (start e) (exact_decimal m e).

Local Open Scope string_scope.

Definition digits (s : positive) : string :=
  NilEmpty.string_of_uint (Pos.to_uint s).

Definition natural (n : Z) : string :=
  NilZero.string_of_uint (N.to_uint (Z.to_N n)).

Definition zeros (n : Z) : string :=
  string_of_list_ascii (repeat "0"%char (Z.to_nat n)).

Definition exponent_part (e : Z) : string :=
  "e" ++ (if (e <? 0)%Z then "-" else "+") ++ natural (Z.abs e).

(** Steps 6 to 12 of Number::toString, from the digits of [s] and [n]. *)
Definition format (ds : string) (n : Z) : string :=
  let k := Z.of_nat (String.length ds) in
  if ((-6 <? n) && (n <=? 21))%Z then
    if (k <=? n)%Z then ds ++ zeros (n - k)
    else if (0 <? n)%Z then
      substring 0 (Z.to_nat n) ds ++ "." ++
      substring (Z.to_nat n) (Z.to_nat (k - n)) ds
    else "0." ++ zeros (- n) ++ ds
  else
    match ds with
    | EmptyString => EmptyString
    | String c EmptyString => String c (exponent_part (n - 1))
    | String c rest => String c ("." ++ rest ++ exponent_part (n - 1))
    end.

(** The decimal exponent [n] of a finite non-zero number: the decimal
    [s * 10^p] that is printed for it lies in [10^(n-1), 10^n). *)
Definition decimal_exponent (m : positive) (e : Z) : Z :=
  let '(s, p) := shortest m e in
  (p + Z.of_nat (String.length (digits s)))%Z.

Definition toString_finite (m : positive) (e : Z) : string :=
  format (digits (fst (shortest m e))) (decimal_exponent m e).

Definition Number_toString (x : number) : string :=
  match Prim2SF x with
  | S754_nan => "NaN"
  | S754_zero _ => "0"
  | S754_infinity false => "Infinity"
  | S754_infinity true => "-Infinity"
  | S754_finite false m e => toString_finite m e
  | S754_finite true m e => "-" ++ toString_finite m e
  end.

(** *** Shapes of a rendered number *)








End Js.

(* ===================================================================== *)
(** ** CryptoJS: MD5, SHA-256, HMAC *)
(* ===================================================================== *)

Module CryptoJS.

Import Word32 Bytes.

Definition state4 : Type := (Z * Z * Z * Z)%type.

(** *** MD5 (RFC 1321) *)

Definition md5_T : list Z :=
  [ 3614090360; 3905402710; 606105819; 3250441966; 4118548399; 1200080426;
    2821735955; 4249261313; 1770035416; 2336552879; 4294925233; 2304563134;
    1804603682; 4254626195; 2792965006; 1236535329; 4129170786; 3225465664;
    643717713; 3921069994; 3593408605; 38016083; 3634488961; 3889429448;
    568446438; 3275163606; 4107603335; 1163531501; 2850285829; 4243563512;
    1735328473; 2368359562; 4294588738; 2272392833; 1839030562; 4259657740;
    2763975236; 1272893353; 4139469664; 3200236656; 681279174; 3936430074;
    3572445317; 76029189; 3654602809; 3873151461; 530742520; 3299628645;
    4096336452; 1126891415; 2878612391; 4237533241; 1700485571; 2399980690;
    4293915773; 2240044497; 1873313359; 4264355552; 2734768916; 1309151649;
    4149444226; 3174756917; 718787259; 3951481745 ].

Definition md5_S : list Z :=
  [ 7; 12; 17; 22; 7; 12; 17; 22; 7; 12; 17; 22; 7; 12; 17; 22;
    5; 9; 14; 20; 5; 9; 14; 20; 5; 9; 14; 20; 5; 9; 14; 20;
    4; 11; 16; 23; 4; 11; 16; 23; 4; 11; 16; 23; 4; 11; 16; 23;
    6; 10; 15; 21; 6; 10; 15; 21; 6; 10; 15; 21; 6; 10; 15; 21 ].

Definition md5_init : state4 :=
  (1732584193, 4023233417, 2562383102, 271733878).

(** The round function and the index of the message word of step [i]. *)
Definition md5_mix (i : nat) (b c d : Z) : Z * nat :=
  if (i <? 16)%nat then
    (Z.lor (Z.land b c) (Z.land (Word32.not b) d), i)
  else if (i <? 32)%nat then
    (Z.lor (Z.land d b) (Z.land (Word32.not d) c), ((5 * i + 1) mod 16)%nat)
  else if (i <? 48)%nat then
    (Z.lxor (Z.lxor b c) d, ((3 * i + 5) mod 16)%nat)
  else
    (Z.lxor c (Z.lor b (Word32.not d)), ((7 * i) mod 16)%nat).

Definition md5_step (M : list Z) (st : state4) (i : nat) : state4 :=
  let '(a, b, c, d) := st in
  let '(f, g) := md5_mix i b c d in
  let sum := add (add (add a f) (nth i md5_T 0)) (nth g M 0) in
  (d, add b (rotl sum (nth i md5_S 0)), b, c).

Definition md5_block (st : state4) (block : list Z) : state4 :=
  let M := words of_bytes_le block in
  let '(a, b, c, d) := st in
  let '(a', b', c', d') := fold_left (md5_step M) (seq 0 64) st in
  (add a a', add b b', add c c', add d d').

Definition u64_le (n : Z) : list Z :=
  map (fun i => Z.shiftr n (8 * i) mod 256) [0; 1; 2; 3; 4; 5; 6; 7].

Definition md5_pad (msg : list Z) : list Z :=
  let len := Z.of_nat (List.length msg) in
  msg ++ [128] ++ repeat 0 (pad_zeros len) ++ u64_le (8 * len).

Definition md5_state (msg : list Z) : state4 :=
  fold_left md5_block (chunks 64 (md5_pad msg)) md5_init.

Definition md5_digest (msg : list Z) : list Z :=
  let '(a, b, c, d) := md5_state msg in
  bytes_le a ++ bytes_le b ++ bytes_le c ++ bytes_le d.

(** [CryptoJS.MD5(message).toString()]: the message is a string, parsed
    as UTF-8; [toString] of the digest is its hexadecimal encoding. *)
Definition MD5 (message : string) : string :=
  hex (md5_digest (of_string message)).

(** *** SHA-256 (FIPS 180-4) *)

Definition sha256_K : list Z :=
  [ 1116352408; 1899447441; 3049323471; 3921009573; 961987163; 1508970993;
    2453635748; 2870763221; 3624381080; 310598401; 607225278; 1426881987;
    1925078388; 2162078206; 2614888103; 3248222580; 3835390401; 4022224774;
    264347078; 604807628; 770255983; 1249150122; 1555081692; 1996064986;
    2554220882; 2821834349; 2952996808; 3210313671; 3336571891; 3584528711;
    113926993; 338241895; 666307205; 773529912; 1294757372; 1396182291;
    1695183700; 1986661051; 2177026350; 2456956037; 2730485921; 2820302411;
    3259730800; 3345764771; 3516065817; 3600352804; 4094571909; 275423344;
    430227734; 506948616; 659060556; 883997877; 958139571; 1322822218;
    1537002063; 1747873779; 1955562222; 2024104815; 2227730452; 2361852424;
    2428436474; 2756734187; 3204031479; 3329325298 ].

Definition sha256_init : list Z :=
  [ 1779033703; 3144134277; 1013904242; 2773480762;
    1359893119; 2600822924; 528734635; 1541459225 ].

Definition xor3 (x y z : Z) : Z := Z.lxor (Z.lxor x y) z.

Definition Sigma0 (x : Z) : Z := xor3 (rotr x 2) (rotr x 13) (rotr x 22).
Definition Sigma1 (x : Z) : Z := xor3 (rotr x 6) (rotr x 11) (rotr x 25).
Definition sigma0 (x : Z) : Z := xor3 (rotr x 7) (rotr x 18) (Z.shiftr x 3).
Definition sigma1 (x : Z) : Z := xor3 (rotr x 17) (rotr x 19) (Z.shiftr x 10).
Definition Ch (x y z : Z) : Z := Z.lxor (Z.land x y) (Z.land (Word32.not x) z).
Definition Maj (x y z : Z) : Z := xor3 (Z.land x y) (Z.land x z) (Z.land y z).

(** The message schedule: W[t] for t in 16..63 is appended to the list. *)
Definition sha256_extend (W : list Z) (t : nat) : list Z :=
  W ++ [ add (add (sigma1 (nth (t - 2) W 0)) (nth (t - 7) W 0))
             (add (sigma0 (nth (t - 15) W 0)) (nth (t - 16) W 0)) ].

Definition sha256_schedule (block : list Z) : list Z :=
  fold_left sha256_extend (seq 16 48) (words of_bytes_be block).

Definition state8 : Type := (Z * Z * Z * Z * Z * Z * Z * Z)%type.

Definition sha256_round (W : list Z) (st : state8) (t : nat) : state8 :=
  let '(a, b, c, d, e, f, g, h) := st in
  let T1 := add (add (add (add h (Sigma1 e)) (Ch e f g)) (nth t sha256_K 0))
                (nth t W 0) in
  let T2 := add (Sigma0 a) (Maj a b c) in
  (add T1 T2, a, b, c, add d T1, e, f, g).

Definition state8_of (H : list Z) : state8 :=
  (nth 0%nat H 0, nth 1%nat H 0, nth 2%nat H 0, nth 3%nat H 0,
   nth 4%nat H 0, nth 5%nat H 0, nth 6%nat H 0, nth 7%nat H 0).

Definition sha256_block (H : list Z) (block : list Z) : list Z :=
  let W := sha256_schedule block in
  let '(a, b, c, d, e, f, g, h) :=
    fold_left (sha256_round W) (seq 0 64) (state8_of H) in
  map (fun p => add (fst p) (snd p)) (combine H [a; b; c; d; e; f; g; h]).

Definition u64_be (n : Z) : list Z := rev (u64_le n).

Definition sha256_pad (msg : list Z) : list Z :=
  let len := Z.of_nat (List.length msg) in
  msg ++ [128] ++ repeat 0 (pad_zeros len) ++ u64_be (8 * len).

Definition sha256_digest (msg : list Z) : list Z :=
  flat_map bytes_be
    (fold_left sha256_block (chunks 64 (sha256_pad msg)) sha256_init).

Definition SHA256 (message : string) : string :=
  hex (sha256_digest (of_string message)).

(** *** HMAC (RFC 2104) over SHA-256 *)

(** A key longer than the 64-byte block is hashed first; the key is then
    padded with zero bytes to the block size. *)
Definition hmac_key (key : list Z) : list Z :=
  let k := if (64 <? List.length key)%nat then sha256_digest key else key in
  k ++ repeat 0 (64 - List.length k)%nat.

Definition hmac_sha256_digest (msg key : list Z) : list Z :=
  let k := hmac_key key in
  let ikey := map (Z.lxor 54) k in
  let okey := map (Z.lxor 92) k in
  sha256_digest (okey ++ sha256_digest (ikey ++ msg)).

(** [CryptoJS.HmacSHA256(message, key).toString()]. *)
Definition HmacSHA256 (message key : string) : string :=
  hex (hmac_sha256_digest (of_string message) (of_string key)).

End CryptoJS.


(* ===================================================================== *)
(** ** JavaScript objects and JSON.stringify *)
(* ===================================================================== *)

Module Json.

Import Js.
Local Open Scope string_scope.

#[local] Set Warnings "-register-all".

(** A JavaScript value; an object keeps its properties in insertion
    order. *)
Inductive value : Type :=
| VUndefined
| VNull
| VBool (b : bool)
| VNumber (n : number)
| VString (s : string)
| VArray (items : list value)
| VObject (props : list (string * value)).

Definition object : Type := list (string * value).

Definition keys (o : object) : list string := map fst o.

(** [o[k]]: the value of the first property named [k]. *)
Fixpoint lookup (k : string) (o : object) : option value :=
  match o with
  | [] => None
  | (k', v) :: rest => if String.eqb k k' then Some v else lookup k rest
  end.

(** [...(x && { ... })] inside an object literal: a truthy [x] yields the
    object, whose properties are copied; a falsy [x] (undefined, 0, NaN,
    the empty string) is spread as nothing. *)
Definition spread_and {A : Type} (truthy : A -> bool) (x : option A)
  (obj : A -> object) : object :=
  match x with
  | Some a => if truthy a then obj a else []
  | None => []
  end.

(** The double quote character (code 34). *)
Definition dquote : ascii := "034"%char.

Definition escape_char (c : ascii) : string :=
  let n := Z.of_N (N_of_ascii c) in
  if Ascii.eqb c dquote then String "\" (String dquote EmptyString)
  else if Ascii.eqb c "\"%char then "\\"
  else if (n =? 8)%Z then "\b"
  else if (n =? 9)%Z then "\t"
  else if (n =? 10)%Z then "\n"
  else if (n =? 12)%Z then "\f"
  else if (n =? 13)%Z then "\r"
  else if (n <? 32)%Z then "\u00" ++ Bytes.hex_byte n
  else String c EmptyString.

Fixpoint escape (s : string) : string :=
  match s with
  | EmptyString => EmptyString
  | String c rest => escape_char c ++ escape rest
  end.

Definition quote (s : string) : string :=
  String dquote (escape s ++ String dquote EmptyString).

Definition is_finite (n : number) : bool :=
  negb (PrimFloat.is_nan n || PrimFloat.is_infinity n).

(** [JSON.stringify(v)]; [None] stands for [undefined]: such a property
    is left out of an object and written [null] in an array. *)
Fixpoint stringify (v : value) : option string :=
  match v with
  | VUndefined => None
  | VNull => Some "null"
  | VBool b => Some (if b then "true" else "false")
  | VNumber n => Some (if is_finite n then Number_toString n else "null")
  | VString s => Some (quote s)
  | VArray items =>
      Some ("[" ++ String.concat ","
              (map (fun x => match stringify x with
                             | Some t => t
                             | None => "null"
                             end) items) ++ "]")
  | VObject props =>
      Some ("{" ++ String.concat ","
              (flat_map (fun kv => match stringify (snd kv) with
                                   | Some t => [quote (fst kv) ++ ":" ++ t]
                                   | None => []
                                   end) props) ++ "}")
  end.

Definition JSON_stringify (v : value) : string :=
  match stringify v with
  | Some t => t
  | None => "undefined"
  end.

(** ToBoolean on any value: objects and arrays are truthy. *)
Definition truthy_value (v : value) : bool :=
  match v with
  | VUndefined => false
  | VNull => false
  | VBool b => b
  | VNumber n => truthy_number n
  | VString s => truthy_string s
  | VArray _ => true
  | VObject _ => true
  end.

(** [v?.[k]] for a property name [k] that is no array index and no
    built-in property: [undefined] unless [v] is an object that has it. *)
Definition optional_property (v : value) (k : string) : value :=
  match v with
  | VObject props =>
      match lookup k props with
      | Some x => x
      | None => VUndefined
      end
  | _ => VUndefined
  end.

(** [x || d]. *)
Definition value_or (x d : value) : value :=
  if truthy_value x then x else d.

End Json.

(* ===================================================================== *)
(** ** types.ts *)
(* ===================================================================== *)

Module Types.

Import Js Json.
Local Open Scope string_scope.
#[local] Set Warnings "-inexact-float".

Inductive Environment : Type := sandbox | production.

(** [signature?: { key?: string; path?: string; env?: string }]. *)
Module SignatureConfig.
Record t : Type := {
  key : option string;
  path : option string;
  env : option string
}.
End SignatureConfig.

Module PaybinConfig.
Record t : Type := {
  publicKey : string;
  secretKey : string;
  environment : option Environment;
  signature : option SignatureConfig.t
}.
End PaybinConfig.

(** The response envelope [PaybinResponse<T>]; [data] is [T | null]. *)
Module PaybinResponse.
Record t : Type := {
  apiVersion : string;
  data : value;
  code : number;
  message : string
}.
End PaybinResponse.

Inductive CryptoSymbol : Type := BTC | ETH | LTC | USDT | USDC | BNB | TRX.

(** A [CryptoSymbol] is the string of its name. *)
Definition CryptoSymbol_string (s : CryptoSymbol) : string :=
  match s with
  | BTC => "BTC" | ETH => "ETH" | LTC => "LTC" | USDT => "USDT"
  | USDC => "USDC" | BNB => "BNB" | TRX => "TRX"
  end.

Inductive FiatCurrency : Type := USD | EUR | TRY | GBP.

Definition FiatCurrency_string (c : FiatCurrency) : string :=
  match c with
  | USD => "USD" | EUR => "EUR" | TRY => "TRY" | GBP => "GBP"
  end.

Inductive NetworkId : Type :=
| BitcoinMainnet | LitecoinMainnet | EthereumMainnet
| BinanceSmartChain | OptimismMainnet | TronMainnet.

(** A numeric enum: the member is its number. *)
Definition NetworkId_number (n : NetworkId) : number :=
  match n with
  | BitcoinMainnet => 1%float
  | LitecoinMainnet => 2%float
  | EthereumMainnet => 3%float
  | BinanceSmartChain => 4%float
  | OptimismMainnet => 5%float
  | TronMainnet => 6%float
  end.

Inductive PaybinErrorCode : Type :=
| Z100 | Z200 | Z202 | Z204 | Z206 | Z300 | Z400 | Z500 | Z501 | Z502
| Z503 | Z504 | Z507 | Z509 | Z511 | Z513 | Z514 | Z519 | Z529 | Z531
| Z533 | Z540 | Z600 | Z700 | Z800 | Z900.

(** [PaybinErrorCode | number]. *)
Inductive error_code : Type :=
| CodeNumber (n : number)
| CodeName (c : PaybinErrorCode).

Module PaybinError.
Record t : Type := {
  message : string;
  code : error_code;
  httpStatus : number;
  response : option PaybinResponse.t
}.
End PaybinError.

Module CreateDepositHashInput.
Record t : Type := {
  publicKey : string;
  symbol : CryptoSymbol;
  label : string;
  referenceId : string;
  callbackUrl : string
}.
End CreateDepositHashInput.

Module WithdrawHashInput.
Record t : Type := {
  symbol : CryptoSymbol;
  amount : number;
  address : string;
  merchantTransactionId : string
}.
End WithdrawHashInput.

Module VerifyStartHashInput.
Record t : Type := {
  symbol : CryptoSymbol;
  networkId : NetworkId;
  address : string;
  referenceId : string
}.
End VerifyStartHashInput.

Module VerifyConfirmHashInput.
Record t : Type := {
  symbol : CryptoSymbol;
  networkId : NetworkId;
  amount : number;
  referenceId : string
}.
End VerifyConfirmHashInput.

End Types.

(* ===================================================================== *)
(** ** utils/hash.ts and utils/webhook.ts *)
(* ===================================================================== *)

Module Hash.

Import Js Types.
Local Open Scope string_scope.

(** The string that is hashed for a deposit address creation. *)
Definition depositHashString (input : CreateDepositHashInput.t)
  (secretKey : string) : string :=
  CreateDepositHashInput.publicKey input ++
  CryptoSymbol_string (CreateDepositHashInput.symbol input) ++
  CreateDepositHashInput.label input ++
  CreateDepositHashInput.referenceId input ++
  CreateDepositHashInput.callbackUrl input ++
  secretKey.

Definition generateDepositHash (input : CreateDepositHashInput.t)
  (secretKey : string) : string :=
  CryptoJS.MD5 (depositHashString input secretKey).

Definition withdrawHashString (input : WithdrawHashInput.t)
  (secretKey : string) : string :=
  CryptoSymbol_string (WithdrawHashInput.symbol input) ++
  Number_toString (WithdrawHashInput.amount input) ++
  WithdrawHashInput.address input ++
  WithdrawHashInput.merchantTransactionId input ++
  secretKey.

Definition generateWithdrawHash (input : WithdrawHashInput.t)
  (secretKey : string) : string :=
  CryptoJS.MD5 (withdrawHashString input secretKey).

Definition verifyStartHashString (input : VerifyStartHashInput.t)
  (secretKey : string) : string :=
  CryptoSymbol_string (VerifyStartHashInput.symbol input) ++
  Number_toString (NetworkId_number (VerifyStartHashInput.networkId input)) ++
  VerifyStartHashInput.address input ++
  VerifyStartHashInput.referenceId input ++
  secretKey.

Definition generateVerifyStartHash (input : VerifyStartHashInput.t)
  (secretKey : string) : string :=
  CryptoJS.MD5 (verifyStartHashString input secretKey).

Definition verifyConfirmHashString (input : VerifyConfirmHashInput.t)
  (secretKey : string) : string :=
  CryptoSymbol_string (VerifyConfirmHashInput.symbol input) ++
  Number_toString (NetworkId_number (VerifyConfirmHashInput.networkId input)) ++
  Number_toString (VerifyConfirmHashInput.amount input) ++
  VerifyConfirmHashInput.referenceId input ++
  secretKey.

Definition generateVerifyConfirmHash (input : VerifyConfirmHashInput.t)
  (secretKey : string) : string :=
  CryptoJS.MD5 (verifyConfirmHashString input secretKey).

(** [signature === expectedSignature]. *)
Definition verifyWebhookSignature (payload signature secretKey : string)
  : bool :=
  let expectedSignature := CryptoJS.HmacSHA256 payload secretKey in
  String.eqb signature expectedSignature.

Definition generateWebhookSignature (payload secretKey : string) : string :=
  CryptoJS.HmacSHA256 payload secretKey.

(** utils/webhook.ts *)
Definition verifyWebhook (payload signature secretKey : string) : bool :=
  verifyWebhookSignature payload signature secretKey.

End Hash.

(* ===================================================================== *)
(** ** Exceptions, effects and the host *)
(* ===================================================================== *)

Module Effects.

Import Js Json Types.

(** What a [throw] carries: a plain [Error] with its message, or a
    [PaybinError]. *)
Inductive exn : Type :=
| JsError (message : string)
| Thrown (e : PaybinError.t).

Inductive result (A : Type) : Type :=
| Ok (a : A)
| Throw (e : exn).

Arguments Ok {A} a.
Arguments Throw {A} e.

Definition headers : Type := list (string * string).

(** What a call does besides computing: it asks the signer for a
    signature, it hands a request to the transport. *)
Inductive event : Type :=
| Signed (payload key : string)
| Posted (baseURL endpoint : string) (body : value) (hdrs : headers).

(** A computation: the events it performed, in order, and how it ended. *)
Definition M (A : Type) : Type := (list event * result A)%type.

Definition ret {A : Type} (a : A) : M A := ([], Ok a).

Definition throw {A : Type} (e : exn) : M A := ([], Throw e).

Definition emit (ev : event) : M unit := ([ev], Ok tt).

Definition lift {A : Type} (r : result A) : M A := ([], r).

Definition bind {A B : Type} (m : M A) (k : A -> M B) : M B :=
  match m with
  | (t, Ok a) => let '(t', r) := k a in (t ++ t', r)
  | (t, Throw e) => (t, Throw e)
  end.

Definition trace {A : Type} (m : M A) : list event := fst m.
Definition outcome {A : Type} (m : M A) : result A := snd m.

(** How [axiosInstance.post] settles before the interceptors run: with a
    response, or rejected with an error that holds the response, holds
    only the request, or holds neither. *)
Inductive axios_outcome : Type :=
| Fulfilled (status : number) (data : PaybinResponse.t)
| RejectedResponse (status : number) (data : option PaybinResponse.t)
| RejectedNoResponse
| RejectedSetup (message : string).

(** The world around the client: the file system, the process
    environment, Node's RSA-SHA512 signer (base64 output) and the HTTP
    transport. [None] from [readFileSync] stands for its exception. *)
Record Host : Type := {
  readFileSync : string -> option string;
  process_env : string -> option string;
  createSign_RSA_SHA512 : string -> string -> result string;
  axios_post : string -> headers -> string -> value -> headers
               -> axios_outcome
}.

Definition is_signed (ev : event) : bool :=
  match ev with
  | Signed _ _ => true
  | Posted _ _ _ _ => false
  end.

Definition is_posted (ev : event) : bool := negb (is_signed ev).

End Effects.

Declare Scope effect_scope.
Delimit Scope effect_scope with effect.
Notation "x <- m ;; k" := (Effects.bind m (fun x => k))
  (at level 61, m at next level, right associativity) : effect_scope.

(* ===================================================================== *)
(** ** client.ts *)
(* ===================================================================== *)

Module Client.

Import Js Json Types Effects.
Local Open Scope string_scope.
Local Open Scope effect_scope.
#[local] Set Warnings "-inexact-float".

Definition BASE_URLS (e : Environment) : string :=
  match e with
  | sandbox => "https://sandbox.paybin.io"
  | production => "https://gateway.paybin.io"
  end.

Module AxiosInstance.
Record t : Type := {
  baseURL : string;
  headers : Effects.headers;
  timeout : Z
}.
End AxiosInstance.

Module PaybinClient.
Record t : Type := {
  axiosInstance : AxiosInstance.t;
  publicKey : string;
  secretKey : string;
  signaturePrivateKey : option string
}.
End PaybinClient.

Module AxiosResponse.
Record t : Type := {
  status : number;
  data : PaybinResponse.t
}.
End AxiosResponse.

(** [if (x) { ... x ... }] on an optional string: the string when it is
    truthy. *)
Definition if_truthy (x : option string) : option string :=
  match x with
  | Some s => if truthy_string s then Some s else None
  | None => None
  end.

Definition DEFAULT_ENV_NAME : string := "PAYBIN_SIGNATURE_PRIVATE_KEY".

Definition loadSignaturePrivateKey (h : Host) (config : PaybinConfig.t)
  : result (option string) :=
  match PaybinConfig.signature config with
  | None => Ok None
  | Some sig =>
      let key := SignatureConfig.key sig in
      let path := SignatureConfig.path sig in
      let env := SignatureConfig.env sig in
      (* Priority: key > path > env *)
      match if_truthy key with
      | Some k => Ok (Some k)
      | None =>
          match if_truthy path with
          | Some p =>
              match readFileSync h p with
              | Some contents => Ok (Some contents)
              | None =>
                  Throw (JsError
                    ("Failed to read signature private key from path: "
                     ++ p))
              end
          | None =>
              let envName := or_else env DEFAULT_ENV_NAME in
              let envValue := process_env h envName in
              match if_truthy envValue with
              | Some v => Ok (Some v)
              | None =>
                  if truthy_opt truthy_string env
                  then Throw (JsError
                         ("Environment variable " ++ envName
                          ++ " is not set"))
                  else Ok None
              end
          end
      end
  end.

(** The constructor. *)
Definition new (h : Host) (config : PaybinConfig.t)
  : result PaybinClient.t :=
  match loadSignaturePrivateKey h config with
  | Throw e => Throw e
  | Ok signaturePrivateKey =>
      let baseURL :=
        BASE_URLS (match PaybinConfig.environment config with
                   | Some e => e
                   | None => sandbox
                   end) in
      Ok {| PaybinClient.axiosInstance :=
              {| AxiosInstance.baseURL := baseURL;
                 AxiosInstance.headers :=
                   [ ("Content-Type", "application/json");
                     ("X-Api-Key", PaybinConfig.secretKey config) ];
                 AxiosInstance.timeout := 30000 |};
            PaybinClient.publicKey := PaybinConfig.publicKey config;
            PaybinClient.secretKey := PaybinConfig.secretKey config;
            PaybinClient.signaturePrivateKey := signaturePrivateKey |}
  end.

Definition signPayload (h : Host) (this : PaybinClient.t)
  (payload : string) : M string :=
  match if_truthy (PaybinClient.signaturePrivateKey this) with
  | None => throw (JsError "Signature private key is not configured")
  | Some key =>
      _ <- emit (Signed payload key) ;;
      lift (createSign_RSA_SHA512 h payload key)
  end.

(** [x || y] on numbers. *)
Definition number_or (x y : number) : number :=
  if truthy_number x then x else y.

(** The response interceptor of [setupInterceptors]: a response passes
    unchanged, a rejection is thrown again as a [PaybinError]. *)
Definition interceptor (o : axios_outcome) : result AxiosResponse.t :=
  match o with
  | Fulfilled status data =>
      Ok {| AxiosResponse.status := status; AxiosResponse.data := data |}
  | RejectedResponse status data =>
      Throw (Thrown
        {| PaybinError.message :=
             or_else (option_map PaybinResponse.message data)
                     "An error occurred";
           PaybinError.code :=
             CodeNumber
               (match data with
                | Some d => number_or (PaybinResponse.code d) status
                | None => status
                end);
           PaybinError.httpStatus := status;
           PaybinError.response := data |})
  | RejectedNoResponse =>
      Throw (Thrown
        {| PaybinError.message := "No response received from server";
           PaybinError.code := CodeNumber 0%float;
           PaybinError.httpStatus := 0%float;
           PaybinError.response := None |})
  | RejectedSetup message =>
      Throw (Thrown
        {| PaybinError.message := or_else (Some message) "An error occurred";
           PaybinError.code := CodeNumber 0%float;
           PaybinError.httpStatus := 0%float;
           PaybinError.response := None |})
  end.

(** [this.axiosInstance.post(endpoint, data, { headers })]: one request
    handed to the transport, whose outcome goes through the interceptor. *)
Definition axiosInstance_post (h : Host) (inst : AxiosInstance.t)
  (endpoint : string) (data : value) (hdrs : headers)
  : M AxiosResponse.t :=
  _ <- emit (Posted (AxiosInstance.baseURL inst) endpoint data hdrs) ;;
  lift (interceptor
          (axios_post h (AxiosInstance.baseURL inst)
             (AxiosInstance.headers inst) endpoint data hdrs)).

(** The per-request headers of [post]. *)
Definition signatureHeaders (h : Host) (this : PaybinClient.t)
  (payload : string) : M headers :=
  if truthy_opt truthy_string (PaybinClient.signaturePrivateKey this)
  then
    signature <- signPayload h this payload ;;
    ret [("X-Signature", signature)]
  else ret [].

Definition post (h : Host) (this : PaybinClient.t) (endpoint : string)
  (data : value) : M PaybinResponse.t :=
  let payload := JSON_stringify data in
  hdrs <- signatureHeaders h this payload ;;
  response <- axiosInstance_post h (PaybinClient.axiosInstance this)
                endpoint data hdrs ;;
  let body := AxiosResponse.data response in
  if strict_neq (PaybinResponse.code body) 200%float
  then throw (Thrown
         {| PaybinError.message := PaybinResponse.message body;
            PaybinError.code := CodeNumber (PaybinResponse.code body);
            PaybinError.httpStatus := AxiosResponse.status response;
            PaybinError.response := Some body |})
  else ret body.

Definition getPublicKey (this : PaybinClient.t) : string :=
  PaybinClient.publicKey this.

Definition getSecretKey (this : PaybinClient.t) : string :=
  PaybinClient.secretKey this.

End Client.

(* ===================================================================== *)
(** ** api/deposit.ts, api/withdraw.ts, api/balance.ts *)
(* ===================================================================== *)

Module DepositAPI.

Import Js Json Types Effects Client.
Local Open Scope string_scope.

Module CreateAddressParams.
Record t : Type := {
  symbol : CryptoSymbol;
  label : string;
  referenceId : string;
  callbackUrl : string;
  amount : option number;
  currency : option FiatCurrency;
  redirectUrl : option string;
  cancelUrl : option string
}.
End CreateAddressParams.

Module GetAddressParams.
Record t : Type := {
  memberId : string;
  symbol : CryptoSymbol;
  label : option string;
  networkId : option NetworkId
}.
End GetAddressParams.

Definition truthy_currency (c : FiatCurrency) : bool :=
  truthy_string (FiatCurrency_string c).

Definition truthy_networkId (n : NetworkId) : bool :=
  truthy_number (NetworkId_number n).

Definition createAddress_hash (client : PaybinClient.t)
  (params : CreateAddressParams.t) : string :=
  Hash.generateDepositHash
    {| CreateDepositHashInput.publicKey := getPublicKey client;
       CreateDepositHashInput.symbol := CreateAddressParams.symbol params;
       CreateDepositHashInput.label := CreateAddressParams.label params;
       CreateDepositHashInput.referenceId :=
         CreateAddressParams.referenceId params;
       CreateDepositHashInput.callbackUrl :=
         CreateAddressParams.callbackUrl params |}
    (getSecretKey client).

(** The object literal [request] of [createAddress]. *)
Definition createAddress_request (client : PaybinClient.t)
  (params : CreateAddressParams.t) : object :=
  let hash := createAddress_hash client params in
  ([ ("PublicKey", VString (getPublicKey client));
    ("Symbol",
     VString (CryptoSymbol_string (CreateAddressParams.symbol params)));
    ("Label", VString (CreateAddressParams.label params));
    ("ReferenceId", VString (CreateAddressParams.referenceId params));
    ("CallbackUrl", VString (CreateAddressParams.callbackUrl params));
    ("Hash", VString hash) ]
  ++ spread_and truthy_number (CreateAddressParams.amount params)
       (fun a => [("Amount", VNumber a)])
  ++ spread_and truthy_currency (CreateAddressParams.currency params)
       (fun c => [("Currency", VString (FiatCurrency_string c))])
  ++ spread_and truthy_string (CreateAddressParams.redirectUrl params)
       (fun u => [("RedirectUrl", VString u)])
  ++ spread_and truthy_string (CreateAddressParams.cancelUrl params)
       (fun u => [("CancelUrl", VString u)]))%list.

Definition createAddress (h : Host) (client : PaybinClient.t)
  (params : CreateAddressParams.t) : M PaybinResponse.t :=
  post h client "/v1/deposit/address/create"
    (VObject (createAddress_request client params)).

Definition getAddress_request (client : PaybinClient.t)
  (params : GetAddressParams.t) : object :=
  ([ ("PublicKey", VString (getPublicKey client));
    ("MemberId", VString (GetAddressParams.memberId params));
    ("Symbol",
     VString (CryptoSymbol_string (GetAddressParams.symbol params))) ]
  ++ spread_and truthy_string (GetAddressParams.label params)
       (fun l => [("Label", VString l)])
  ++ spread_and truthy_networkId (GetAddressParams.networkId params)
       (fun n => [("NetworkId", VNumber (NetworkId_number n))]))%list.

Definition getAddress (h : Host) (client : PaybinClient.t)
  (params : GetAddressParams.t) : M PaybinResponse.t :=
  post h client "/v1/deposit/address/get"
    (VObject (getAddress_request client params)).

End DepositAPI.

Module WithdrawAPI.

Import Js Json Types Effects Client.
Local Open Scope string_scope.

Module AddParams.
Record t : Type := {
  referenceId : string;
  amount : number;
  symbol : CryptoSymbol;
  networkId : NetworkId;
  address : string;
  label : string;
  merchantTransactionId : string;
  tfaCode : string;
  email : string
}.
End AddParams.

Module VerifyStartParams.
Record t : Type := {
  referenceId : string;
  symbol : CryptoSymbol;
  networkId : NetworkId;
  address : string;
  label : string
}.
End VerifyStartParams.

Module VerifyConfirmAmountParams.
Record t : Type := {
  referenceId : string;
  symbol : CryptoSymbol;
  networkId : NetworkId;
  amount : number
}.
End VerifyConfirmAmountParams.

Definition add_hash (client : PaybinClient.t) (params : AddParams.t)
  : string :=
  Hash.generateWithdrawHash
    {| WithdrawHashInput.symbol := AddParams.symbol params;
       WithdrawHashInput.amount := AddParams.amount params;
       WithdrawHashInput.address := AddParams.address params;
       WithdrawHashInput.merchantTransactionId :=
         AddParams.merchantTransactionId params |}
    (getSecretKey client).

Definition add_request (client : PaybinClient.t) (params : AddParams.t)
  : object :=
  let hash := add_hash client params in
  [ ("PublicKey", VString (getPublicKey client));
    ("ReferenceId", VString (AddParams.referenceId params));
    ("Amount", VNumber (AddParams.amount params));
    ("Symbol", VString (CryptoSymbol_string (AddParams.symbol params)));
    ("NetworkId", VNumber (NetworkId_number (AddParams.networkId params)));
    ("Address", VString (AddParams.address params));
    ("Label", VString (AddParams.label params));
    ("MerchantTransactionId",
     VString (AddParams.merchantTransactionId params));
    ("Hash", VString hash);
    ("TfaCode", VString (AddParams.tfaCode params));
    ("Email", VString (AddParams.email params)) ].

Definition add (h : Host) (client : PaybinClient.t) (params : AddParams.t)
  : M PaybinResponse.t :=
  post h client "/v1/withdraw/add" (VObject (add_request client params)).

Definition verifyStart_hash (client : PaybinClient.t)
  (params : VerifyStartParams.t) : string :=
  Hash.generateVerifyStartHash
    {| VerifyStartHashInput.symbol := VerifyStartParams.symbol params;
       VerifyStartHashInput.networkId := VerifyStartParams.networkId params;
       VerifyStartHashInput.address := VerifyStartParams.address params;
       VerifyStartHashInput.referenceId :=
         VerifyStartParams.referenceId params |}
    (getSecretKey client).

Definition verifyStart_request (client : PaybinClient.t)
  (params : VerifyStartParams.t) : object :=
  let hash := verifyStart_hash client params in
  [ ("PublicKey", VString (getPublicKey client));
    ("ReferenceId", VString (VerifyStartParams.referenceId params));
    ("Symbol",
     VString (CryptoSymbol_string (VerifyStartParams.symbol params)));
    ("NetworkId",
     VNumber (NetworkId_number (VerifyStartParams.networkId params)));
    ("Address", VString (VerifyStartParams.address params));
    ("Label", VString (VerifyStartParams.label params));
    ("Hash", VString hash) ].

Definition verifyStart (h : Host) (client : PaybinClient.t)
  (params : VerifyStartParams.t) : M PaybinResponse.t :=
  post h client "/v1/verify/start"
    (VObject (verifyStart_request client params)).

Definition verifyConfirmAmount_hash (client : PaybinClient.t)
  (params : VerifyConfirmAmountParams.t) : string :=
  Hash.generateVerifyConfirmHash
    {| VerifyConfirmHashInput.symbol :=
         VerifyConfirmAmountParams.symbol params;
       VerifyConfirmHashInput.networkId :=
         VerifyConfirmAmountParams.networkId params;
       VerifyConfirmHashInput.amount :=
         VerifyConfirmAmountParams.amount params;
       VerifyConfirmHashInput.referenceId :=
         VerifyConfirmAmountParams.referenceId params |}
    (getSecretKey client).

Definition verifyConfirmAmount_request (client : PaybinClient.t)
  (params : VerifyConfirmAmountParams.t) : object :=
  let hash := verifyConfirmAmount_hash client params in
  [ ("PublicKey", VString (getPublicKey client));
    ("ReferenceId", VString (VerifyConfirmAmountParams.referenceId params));
    ("Symbol",
     VString (CryptoSymbol_string (VerifyConfirmAmountParams.symbol params)));
    ("NetworkId",
     VNumber (NetworkId_number (VerifyConfirmAmountParams.networkId params)));
    ("Amount", VNumber (VerifyConfirmAmountParams.amount params));
    ("Hash", VString hash) ].

Definition verifyConfirmAmount (h : Host) (client : PaybinClient.t)
  (params : VerifyConfirmAmountParams.t) : M PaybinResponse.t :=
  post h client "/v1/verify/confirmAmount"
    (VObject (verifyConfirmAmount_request client params)).

Definition getWithdrawableAssets_request (client : PaybinClient.t)
  (referenceId : string) : object :=
  [ ("PublicKey", VString (getPublicKey client));
    ("ReferenceId", VString referenceId) ].

Definition getWithdrawableAssets (h : Host) (client : PaybinClient.t)
  (referenceId : string) : M PaybinResponse.t :=
  post h client "/v1/merchant/withdraw/withdrawableAssets"
    (VObject (getWithdrawableAssets_request client referenceId)).

End WithdrawAPI.

Module BalanceAPI.

Import Js Json Types Effects Client.
Local Open Scope string_scope.

Definition get_request (client : PaybinClient.t) : object :=
  [ ("PublicKey", VString (getPublicKey client)) ].

Definition get (h : Host) (client : PaybinClient.t) : M PaybinResponse.t :=
  post h client "/v1/merchant/balances" (VObject (get_request client)).

(** The symbols [getBySymbol] accepts. *)
Inductive BalanceSymbol : Type :=
| btc | eth | ltc | bnb | usdt | bscusd | trx | trxusd | optusd | opteth
| ethusdc | bscusdc.

Definition BalanceSymbol_string (s : BalanceSymbol) : string :=
  match s with
  | btc => "btc" | eth => "eth" | ltc => "ltc" | bnb => "bnb"
  | usdt => "usdt" | bscusd => "bscusd" | trx => "trx"
  | trxusd => "trxusd" | optusd => "optusd" | opteth => "opteth"
  | ethusdc => "ethusdc" | bscusdc => "bscusdc"
  end.

(** [`${symbol}Balance`]. *)
Definition balanceKey (symbol : BalanceSymbol) : string :=
  BalanceSymbol_string symbol ++ "Balance".

Definition getBySymbol (h : Host) (client : PaybinClient.t)
  (symbol : BalanceSymbol) : M value :=
  Effects.bind (get h client) (fun response =>
    ret (value_or
           (optional_property (PaybinResponse.data response)
              (balanceKey symbol))
           (VNumber 0%float))).

End BalanceAPI.

(* ===================================================================== *)
(** ** paybin.ts *)
(* ===================================================================== *)

Module Paybin.

Import Js Types Effects Client.
Local Open Scope string_scope.

(** The three API objects hold the same client and nothing else. *)
Record t : Type := {
  client : PaybinClient.t
}.

Definition new (h : Host) (config : PaybinConfig.t) : result t :=
  match Client.new h config with
  | Ok c => Ok {| client := c |}
  | Throw e => Throw e
  end.

Definition getEnvironment (this : t) : Environment :=
  if startsWith (getPublicKey (client this)) "sandbox_"
  then sandbox
  else production.

End Paybin.

(* ===================================================================== *)
(** ** utils/webhook.ts: payload parsing and the Express middleware *)
(* ===================================================================== *)

Module Webhook.

Import Js Json Types Effects.
Local Open Scope string_scope.

(** What the middleware reads of the request: the header
    [x-paybin-signature], when there is one, and [req.body.toString()]. *)
Module Request.
Record t : Type := {
  signatureHeader : option string;
  rawBody : string
}.
End Request.

(** What the middleware does: it answers with
    [res.status(status).json({ error })], or it stores the parsed payload in
    [req.body] and calls [next()]. *)
Inductive action : Type :=
| Replied (status : Z) (error : string)
| NextCalled (body : value).

Section WithRuntime.

(** [JSON.parse] of the runtime; [Throw] stands for its [SyntaxError]. *)
Variable JSON_parse : string -> result value.

(** [payload] is a string or an already structured record. *)
Definition parseDepositWebhook (payload : string + value) : result value :=
  match payload with
  | inl text => JSON_parse text
  | inr record => Ok record
  end.

(** The function [createWebhookMiddleware(secretKey)] returns, applied to a
    request; [next] is the rest of the chain, which may throw. The result
    lists what was done, in order. *)
Definition createWebhookMiddleware (secretKey : string) (req : Request.t)
  (next : value -> result unit) : list action :=
  match Client.if_truthy (Request.signatureHeader req) with
  | None => [Replied 401 "Missing signature header"]
  | Some signature =>
      let payload := Request.rawBody req in
      if negb (Hash.verifyWebhook payload signature secretKey)
      then [Replied 401 "Invalid signature"]
      else
        match parseDepositWebhook (inl payload) with
        | Throw _ => [Replied 400 "Invalid payload format"]
        | Ok body =>
            match next body with
            | Ok _ => [NextCalled body]
            | Throw _ =>
                [NextCalled body; Replied 400 "Invalid payload format"]
            end
        end
  end.

End WithRuntime.

End Webhook.

(* ===================================================================== *)
(** ** The seven API operations as one type *)
(* ===================================================================== *)

Module ApiCall.

Import Js Json Types Effects Client.
Local Open Scope string_scope.

Inductive t : Type :=
| DepositCreateAddress (params : DepositAPI.CreateAddressParams.t)
| DepositGetAddress (params : DepositAPI.GetAddressParams.t)
| WithdrawAdd (params : WithdrawAPI.AddParams.t)
| WithdrawVerifyStart (params : WithdrawAPI.VerifyStartParams.t)
| WithdrawVerifyConfirmAmount
    (params : WithdrawAPI.VerifyConfirmAmountParams.t)
| WithdrawGetWithdrawableAssets (referenceId : string)
| BalanceGet.

(** The request record the operation builds. *)
Definition request (client : PaybinClient.t) (call : t) : object :=
  match call with
  | DepositCreateAddress params =>
      DepositAPI.createAddress_request client params
  | DepositGetAddress params => DepositAPI.getAddress_request client params
  | WithdrawAdd params => WithdrawAPI.add_request client params
  | WithdrawVerifyStart params =>
      WithdrawAPI.verifyStart_request client params
  | WithdrawVerifyConfirmAmount params =>
      WithdrawAPI.verifyConfirmAmount_request client params
  | WithdrawGetWithdrawableAssets referenceId =>
      WithdrawAPI.getWithdrawableAssets_request client referenceId
  | BalanceGet => BalanceAPI.get_request client
  end.

(** The operation itself. *)
Definition run (h : Host) (client : PaybinClient.t) (call : t)
  : M PaybinResponse.t :=
  match call with
  | DepositCreateAddress params => DepositAPI.createAddress h client params
  | DepositGetAddress params => DepositAPI.getAddress h client params
  | WithdrawAdd params => WithdrawAPI.add h client params
  | WithdrawVerifyStart params => WithdrawAPI.verifyStart h client params
  | WithdrawVerifyConfirmAmount params =>
      WithdrawAPI.verifyConfirmAmount h client params
  | WithdrawGetWithdrawableAssets referenceId =>
      WithdrawAPI.getWithdrawableAssets h client referenceId
  | BalanceGet => BalanceAPI.get h client
  end.

(** The path the operation posts to. *)
Definition endpoint (call : t) : string :=
  match call with
  | DepositCreateAddress _ => "/v1/deposit/address/create"
  | DepositGetAddress _ => "/v1/deposit/address/get"
  | WithdrawAdd _ => "/v1/withdraw/add"
  | WithdrawVerifyStart _ => "/v1/verify/start"
  | WithdrawVerifyConfirmAmount _ => "/v1/verify/confirmAmount"
  | WithdrawGetWithdrawableAssets _ =>
      "/v1/merchant/withdraw/withdrawableAssets"
  | BalanceGet => "/v1/merchant/balances"
  end.

Definition opt_string (x : option string) : list string :=
  match x with
  | Some s => [s]
  | None => []
  end.

(** The strings that reach the operation from outside: the public key of
    the configuration and the string-valued parameters of the caller. *)
Definition supplied_strings (client : PaybinClient.t) (call : t)
  : list string :=
  getPublicKey client ::
  match call with
  | DepositCreateAddress params =>
      [ CryptoSymbol_string (DepositAPI.CreateAddressParams.symbol params);
        DepositAPI.CreateAddressParams.label params;
        DepositAPI.CreateAddressParams.referenceId params;
        DepositAPI.CreateAddressParams.callbackUrl params ]
      ++ opt_string
           (option_map FiatCurrency_string
              (DepositAPI.CreateAddressParams.currency params))
      ++ opt_string (DepositAPI.CreateAddressParams.redirectUrl params)
      ++ opt_string (DepositAPI.CreateAddressParams.cancelUrl params)
  | DepositGetAddress params =>
      [ DepositAPI.GetAddressParams.memberId params;
        CryptoSymbol_string (DepositAPI.GetAddressParams.symbol params) ]
      ++ opt_string (DepositAPI.GetAddressParams.label params)
  | WithdrawAdd params =>
      [ WithdrawAPI.AddParams.referenceId params;
        CryptoSymbol_string (WithdrawAPI.AddParams.symbol params);
        WithdrawAPI.AddParams.address params;
        WithdrawAPI.AddParams.label params;
        WithdrawAPI.AddParams.merchantTransactionId params;
        WithdrawAPI.AddParams.tfaCode params;
        WithdrawAPI.AddParams.email params ]
  | WithdrawVerifyStart params =>
      [ WithdrawAPI.VerifyStartParams.referenceId params;
        CryptoSymbol_string (WithdrawAPI.VerifyStartParams.symbol params);
        WithdrawAPI.VerifyStartParams.address params;
        WithdrawAPI.VerifyStartParams.label params ]
  | WithdrawVerifyConfirmAmount params =>
      [ WithdrawAPI.VerifyConfirmAmountParams.referenceId params;
        CryptoSymbol_string
          (WithdrawAPI.VerifyConfirmAmountParams.symbol params) ]
  | WithdrawGetWithdrawableAssets referenceId => [referenceId]
  | BalanceGet => []
  end%list.

End ApiCall.

(* ===================================================================== *)
(** ** Inputs of the scenarios *)
(* ===================================================================== *)

Module Scenario.

Import Js Json Types Effects Client.
Local Open Scope string_scope.
#[local] Set Warnings "-inexact-float".

Definition depositInput : CreateDepositHashInput.t :=
  {| CreateDepositHashInput.publicKey := "pub1";
     CreateDepositHashInput.symbol := ETH;
     CreateDepositHashInput.label := "L";
     CreateDepositHashInput.referenceId := "R1";
     CreateDepositHashInput.callbackUrl := "https://x/y" |}.


(** A host with no files, no environment variables, no usable signer and
    no network. *)
Definition bare_host : Host :=
  {| readFileSync := fun _ => None;
     process_env := fun _ => None;
     createSign_RSA_SHA512 := fun _ _ => Throw (JsError "unsupported");
     axios_post := fun _ _ _ _ _ => RejectedNoResponse |}.

(** A host with one key file and one environment variable. *)
Definition keyed_host : Host :=
  {| readFileSync := fun p =>
       if String.eqb p "/etc/paybin/key.pem" then Some "PEM-FROM-FILE"
       else None;
     process_env := fun n =>
       if String.eqb n "MY_KEY" then Some "PEM-FROM-ENV" else None;
     createSign_RSA_SHA512 := fun payload key =>
       Ok ("sig(" ++ payload ++ ")");
     axios_post := fun _ _ _ _ _ => RejectedNoResponse |}.

Definition config_with (signature : option SignatureConfig.t)
  : PaybinConfig.t :=
  {| PaybinConfig.publicKey := "pk_live_1";
     PaybinConfig.secretKey := "secret1";
     PaybinConfig.environment := None;
     PaybinConfig.signature := signature |}.

Definition set_environment (config : PaybinConfig.t)
  (environment : option Environment) : PaybinConfig.t :=
  {| PaybinConfig.publicKey := PaybinConfig.publicKey config;
     PaybinConfig.secretKey := PaybinConfig.secretKey config;
     PaybinConfig.environment := environment;
     PaybinConfig.signature := PaybinConfig.signature config |}.

(** [signature: { env: '' }]. *)
Definition sig_empty_env_name : SignatureConfig.t :=
  {| SignatureConfig.key := None;
     SignatureConfig.path := None;
     SignatureConfig.env := Some "" |}.

(** [signature: { env: 'OTHER_KEY' }]. *)
Definition sig_named_env : SignatureConfig.t :=
  {| SignatureConfig.key := None;
     SignatureConfig.path := None;
     SignatureConfig.env := Some "OTHER_KEY" |}.

(** [signature: {}]. *)
Definition sig_default_env : SignatureConfig.t :=
  {| SignatureConfig.key := None;
     SignatureConfig.path := None;
     SignatureConfig.env := None |}.

(** [signature: { key: '', path: '/etc/paybin/key.pem' }]. *)
Definition sig_empty_inline_key : SignatureConfig.t :=
  {| SignatureConfig.key := Some "";
     SignatureConfig.path := Some "/etc/paybin/key.pem";
     SignatureConfig.env := None |}.

(** [signature: { key: 'INLINE-PEM', path: '/etc/paybin/key.pem',
    env: 'MY_KEY' }]. *)
Definition sig_all_three : SignatureConfig.t :=
  {| SignatureConfig.key := Some "INLINE-PEM";
     SignatureConfig.path := Some "/etc/paybin/key.pem";
     SignatureConfig.env := Some "MY_KEY" |}.

Definition client_with (signaturePrivateKey : option string)
  : PaybinClient.t :=
  {| PaybinClient.axiosInstance :=
       {| AxiosInstance.baseURL := "https://sandbox.paybin.io";
          AxiosInstance.headers :=
            [ ("Content-Type", "application/json");
              ("X-Api-Key", "secret1") ];
          AxiosInstance.timeout := 30000 |};
     PaybinClient.publicKey := "pk_live_1";
     PaybinClient.secretKey := "secret1";
     PaybinClient.signaturePrivateKey := signaturePrivateKey |}.

Definition envelope (code : number) (message : string) : PaybinResponse.t :=
  {| PaybinResponse.apiVersion := "1.0";
     PaybinResponse.data := VNull;
     PaybinResponse.code := code;
     PaybinResponse.message := message |}.

(** A host whose transport answers every request with the same response. *)
Definition replying_host (status : number) (body : PaybinResponse.t) : Host :=
  {| readFileSync := fun _ => None;
     process_env := fun _ => None;
     createSign_RSA_SHA512 := fun payload key =>
       Ok ("sig(" ++ payload ++ ")");
     axios_post := fun _ _ _ _ _ => Fulfilled status body |}.

(** A host whose transport settles every request as a rejection that
    holds a response (for axios, a status outside 2xx). *)
Definition rejecting_host (status : number) (body : option PaybinResponse.t)
  : Host :=
  {| readFileSync := fun _ => None;
     process_env := fun _ => None;
     createSign_RSA_SHA512 := fun payload key =>
       Ok ("sig(" ++ payload ++ ")");
     axios_post := fun _ _ _ _ _ => RejectedResponse status body |}.

Definition balance_body : value :=
  VObject [("PublicKey", VString "pk_live_1")].

(** [createAddress({ ..., amount: 0, currency: 'USD' })]. *)
Definition zero_amount_params : DepositAPI.CreateAddressParams.t :=
  {| DepositAPI.CreateAddressParams.symbol := ETH;
     DepositAPI.CreateAddressParams.label := "L";
     DepositAPI.CreateAddressParams.referenceId := "R1";
     DepositAPI.CreateAddressParams.callbackUrl := "https://x/y";
     DepositAPI.CreateAddressParams.amount := Some 0%float;
     DepositAPI.CreateAddressParams.currency := Some USD;
     DepositAPI.CreateAddressParams.redirectUrl := None;
     DepositAPI.CreateAddressParams.cancelUrl := None |}.

Definition withdraw_params : WithdrawAPI.AddParams.t :=
  {| WithdrawAPI.AddParams.referenceId := "USER-12345";
     WithdrawAPI.AddParams.amount := 0.1%float;
     WithdrawAPI.AddParams.symbol := ETH;
     WithdrawAPI.AddParams.networkId := EthereumMainnet;
     WithdrawAPI.AddParams.address := "0xabc";
     WithdrawAPI.AddParams.label := "Withdrawal";
     WithdrawAPI.AddParams.merchantTransactionId := "W-1";
     WithdrawAPI.AddParams.tfaCode := "123456";
     WithdrawAPI.AddParams.email := "user@example.com" |}.

(** A host whose signer refuses every key. *)
Definition unsigned_host : Host :=
  {| readFileSync := fun _ => None;
     process_env := fun _ => None;
     createSign_RSA_SHA512 := fun _ _ => Throw (JsError "bad PEM");
     axios_post := fun _ _ _ _ _ =>
       Fulfilled 200%float (envelope 200%float "OK") |}.

(** A host with an empty key file and a variable set to the empty string. *)
Definition hollow_host : Host :=
  {| readFileSync := fun p =>
       if String.eqb p "/etc/paybin/key.pem" then Some "" else None;
     process_env := fun n =>
       if String.eqb n "MY_KEY" then Some "" else None;
     createSign_RSA_SHA512 := fun payload key =>
       Ok ("sig(" ++ payload ++ ")");
     axios_post := fun _ _ _ _ _ => RejectedNoResponse |}.

(** A host that answers the balance query with two balances. *)
Definition balance_host : Host :=
  replying_host 200%float
    {| PaybinResponse.apiVersion := "1.0";
       PaybinResponse.data :=
         VObject [ ("btcBalance", VNumber 0.5%float);
                   ("ethBalance", VNumber 0%float) ];
       PaybinResponse.code := 200%float;
       PaybinResponse.message := "OK" |}.

(** A stand-in for [JSON.parse] that reads two texts. *)
Definition toy_parse (text : string) : result value :=
  if String.eqb text "null" then Ok VNull
  else if String.eqb text "{}" then Ok (VObject [])
  else Throw (JsError "Unexpected token").

(** A webhook request for the body [{}], signed with the key ["secret1"]. *)
Definition signed_request : Webhook.Request.t :=
  {| Webhook.Request.signatureHeader :=
       Some (Hash.generateWebhookSignature "{}" "secret1");
     Webhook.Request.rawBody := "{}" |}.

(** A sandbox-prefixed public key used against production. *)
Definition mislabelled_config : PaybinConfig.t :=
  {| PaybinConfig.publicKey := "sandbox_pk_1";
     PaybinConfig.secretKey := "secret1";
     PaybinConfig.environment := Some production;
     PaybinConfig.signature := None |}.

End Scenario.

(* ===================================================================== *)
(** * Properties *)
(* ===================================================================== *)

Import Js Json Types Effects Client.
Local Open Scope string_scope.
#[local] Set Warnings "-inexact-float".

(** ** The digests against published test vectors *)

Example md5_empty :
  CryptoJS.MD5 "" = "d41d8cd98f00b204e9800998ecf8427e".
Proof. vm_compute. reflexivity. Qed.

Example md5_abc :
  CryptoJS.MD5 "abc" = "900150983cd24fb0d6963f7d28e17f72".
Proof. vm_compute. reflexivity. Qed.

Example md5_padding_takes_second_block :
  CryptoJS.MD5 "aaaaaaaaaaaaaaaaaaaaaaaaaaaaaaaaaaaaaaaaaaaaaaaaaaaaaaaa"
  = "3b0c8ac703f828b04c6c197006d17218".
Proof. vm_compute. reflexivity. Qed.

Example sha256_abc :
  CryptoJS.SHA256 "abc"
  = "ba7816bf8f01cfea414140de5dae2223b00361a396177a9cb410ff61f20015ad".
Proof. vm_compute. reflexivity. Qed.

Example hmac_sha256_short_key :
  CryptoJS.HmacSHA256 "The quick brown fox jumps over the lazy dog" "key"
  = "f7bc83f430538424b13298e6aa6fb143ef4d59a14946175997479dbc2d1a3cd8".
Proof. vm_compute. reflexivity. Qed.

Example hmac_sha256_long_key :
  CryptoJS.HmacSHA256 "payload"
    "kkkkkkkkkkkkkkkkkkkkkkkkkkkkkkkkkkkkkkkkkkkkkkkkkkkkkkkkkkkkkkkkkkkkkk"
  = "90697c4ca142f9df9bc7e59fdccfacfa2cd9d955d0eb79222942177602732037".
Proof. vm_compute. reflexivity. Qed.

(** ** Number::toString on sample values *)

Example toString_samples :
  map Number_toString
    [0.1; 100; 0.00004912; 0.000001; 123456789012345680000; (-1.5);
     0.30000000000000004; 1e21; 1e-7; 5e-324; 1.7976931348623157e308]%float
  = ["0.1"; "100"; "0.00004912"; "0.000001"; "123456789012345680000"; "-1.5";
     "0.30000000000000004"; "1e+21"; "1e-7"; "5e-324";
     "1.7976931348623157e+308"].
Proof. vm_compute. reflexivity. Qed.

Example toString_specials :
  map Number_toString [0; -0; nan; infinity; neg_infinity]%float
  = ["0"; "0"; "NaN"; "Infinity"; "-Infinity"].
Proof. vm_compute. reflexivity. Qed.

(** ** Hexadecimal rendering *)

Lemma hex_digit_lower (n : Z) :
  Bytes.is_lower_hex (Bytes.hex_digit n) = true.
Proof.
  unfold Bytes.hex_digit.
  generalize (Z.to_nat n); intro k.
  do 17 (destruct k as [|k]; [reflexivity|]).
  reflexivity.
Qed.

Lemma hex_length (l : list Z) :
  String.length (Bytes.hex l) = (2 * List.length l)%nat.
Proof.
  induction l as [|b rest IH]; simpl.
  - reflexivity.
  - rewrite IH. lia.
Qed.

Lemma hex_all_lower (l : list Z) :
  Bytes.all_lower_hex (Bytes.hex l) = true.
Proof.
  induction l as [|b rest IH]; simpl.
  - reflexivity.
  - rewrite !hex_digit_lower, IH. reflexivity.
Qed.

Lemma md5_digest_length (msg : list Z) :
  List.length (CryptoJS.md5_digest msg) = 16%nat.
Proof.
  unfold CryptoJS.md5_digest.
  destruct (CryptoJS.md5_state msg) as [[[a b] c] d].
  reflexivity.
Qed.

Lemma MD5_length (message : string) :
  String.length (CryptoJS.MD5 message) = 32%nat.
Proof.
  unfold CryptoJS.MD5.
  rewrite hex_length, md5_digest_length. reflexivity.
Qed.

Lemma MD5_lower_hex (message : string) :
  Bytes.all_lower_hex (CryptoJS.MD5 message) = true.
Proof. apply hex_all_lower. Qed.

(** ** Hash engine *)

(** C1. [generateDepositHash] is a function of the record and the secret
    key. Its value is the MD5 digest of
    [publicKey + symbol + label + referenceId + callbackUrl + secretKey],
    joined without separators; the digest is always 32 characters long, all
    of them lowercase hexadecimal digits. For the record
    [{publicKey:"pub1", symbol:"ETH", label:"L", referenceId:"R1",
    callbackUrl:"https://x/y"}] and the secret ["secret1"] it is the digest
    of ["pub1ETHLR1https://x/ysecret1"], which is
    [683771a06196ba0972fd95be8b566ba7]. *)
Theorem generateDepositHash_is_md5_of_concatenation :
  forall (input : CreateDepositHashInput.t) (secretKey : string),
    Hash.generateDepositHash input secretKey
    = CryptoJS.MD5
        (CreateDepositHashInput.publicKey input ++
         CryptoSymbol_string (CreateDepositHashInput.symbol input) ++
         CreateDepositHashInput.label input ++
         CreateDepositHashInput.referenceId input ++
         CreateDepositHashInput.callbackUrl input ++
         secretKey)
    /\ String.length (Hash.generateDepositHash input secretKey) = 32%nat
    /\ Bytes.all_lower_hex (Hash.generateDepositHash input secretKey) = true
    /\ Hash.generateDepositHash Scenario.depositInput "secret1"
       = CryptoJS.MD5 "pub1ETHLR1https://x/ysecret1"
    /\ Hash.generateDepositHash Scenario.depositInput "secret1"
       = "683771a06196ba0972fd95be8b566ba7".
Proof.
  intros input secretKey.
  unfold Hash.generateDepositHash, Hash.depositHashString.
  split; [reflexivity|].
  split; [apply MD5_length|].
  split; [apply MD5_lower_hex|].
  split; vm_compute; reflexivity.
Qed.

(** ** Webhook verifier *)

(** C2. A signature generated for a payload with a secret key verifies
    against the same payload and key, whatever the two strings are. *)
Theorem verifyWebhookSignature_round_trip :
  forall payload secretKey : string,
    Hash.verifyWebhookSignature payload
      (Hash.generateWebhookSignature payload secretKey) secretKey = true.
Proof.
  intros payload secretKey.
  unfold Hash.verifyWebhookSignature, Hash.generateWebhookSignature.
  apply String.eqb_refl.
Qed.

Example webhook_tampered_payload_rejected :
  Hash.verifyWebhook "{'amount':2}"
    (Hash.generateWebhookSignature "{'amount':1}" "secret1") "secret1"
  = false.
Proof. vm_compute. reflexivity. Qed.

(** ** Key resolver *)

(** C3, as stated, at [signature: { env: '' }] with nothing set in the
    environment: a name was supplied and the variable it names is unset,
    yet resolution returns absent instead of failing. *)
Lemma empty_env_name_resolves_to_absent :
  SignatureConfig.env Scenario.sig_empty_env_name = Some ""
  /\ process_env Scenario.bare_host "" = None
  /\ loadSignaturePrivateKey Scenario.bare_host
       (Scenario.config_with (Some Scenario.sig_empty_env_name))
     = Ok None.
Proof. repeat split. Qed.

(** C3, amended. With a signature configuration whose inline key and file
    path are absent or empty: when a non-empty variable name is configured
    and that variable is unset, resolution throws
    ["Environment variable <name> is not set"]; when no name (or the empty
    string) is configured and [PAYBIN_SIGNATURE_PRIVATE_KEY] is unset,
    resolution returns absent without an error. *)
Theorem env_resolution_is_asymmetric :
  forall (h : Host) (config : PaybinConfig.t) (sig : SignatureConfig.t),
    PaybinConfig.signature config = Some sig ->
    if_truthy (SignatureConfig.key sig) = None ->
    if_truthy (SignatureConfig.path sig) = None ->
    (forall name : string,
        SignatureConfig.env sig = Some name ->
        name <> "" ->
        process_env h name = None ->
        loadSignaturePrivateKey h config
        = Throw (JsError ("Environment variable " ++ name ++ " is not set")))
    /\ (SignatureConfig.env sig = None \/ SignatureConfig.env sig = Some "" ->
        process_env h DEFAULT_ENV_NAME = None ->
        loadSignaturePrivateKey h config = Ok None).
Proof.
  intros h config sig Hsig Hkey Hpath.
  unfold loadSignaturePrivateKey.
  rewrite Hsig; cbn zeta. rewrite Hkey, Hpath.
  split.
  - intros name Henv Hname Hunset.
    rewrite Henv.
    destruct name as [|c rest]; [contradiction|].
    cbn [or_else truthy_string truthy_opt].
    rewrite Hunset. reflexivity.
  - intros [Henv|Henv] Hunset; rewrite Henv;
      cbn [or_else truthy_string truthy_opt];
      rewrite Hunset; reflexivity.
Qed.

Lemma env_resolution_is_asymmetric_witness :
  loadSignaturePrivateKey Scenario.bare_host
    (Scenario.config_with (Some Scenario.sig_named_env))
  = Throw (JsError "Environment variable OTHER_KEY is not set")
  /\ loadSignaturePrivateKey Scenario.bare_host
       (Scenario.config_with (Some Scenario.sig_default_env))
     = Ok None.
Proof.
  split.
  - apply (proj1 (env_resolution_is_asymmetric Scenario.bare_host
             (Scenario.config_with (Some Scenario.sig_named_env))
             Scenario.sig_named_env eq_refl eq_refl eq_refl) "OTHER_KEY").
    + reflexivity.
    + discriminate.
    + reflexivity.
  - apply (proj2 (env_resolution_is_asymmetric Scenario.bare_host
             (Scenario.config_with (Some Scenario.sig_default_env))
             Scenario.sig_default_env eq_refl eq_refl eq_refl)).
    + left; reflexivity.
    + reflexivity.
Defined.

(** C7, as stated, at [signature: { key: '', path: '/etc/paybin/key.pem' }]:
    an inline key string is present, yet resolution returns the contents of
    the file, not the inline string. *)
Lemma empty_inline_key_is_passed_over :
  SignatureConfig.key Scenario.sig_empty_inline_key = Some ""
  /\ loadSignaturePrivateKey Scenario.keyed_host
       (Scenario.config_with (Some Scenario.sig_empty_inline_key))
     = Ok (Some "PEM-FROM-FILE").
Proof. repeat split. Qed.

(** C7, amended. When the signature configuration holds a non-empty inline
    key string, resolution returns that string verbatim, whatever file path
    or environment variable the configuration also names and whatever the
    file system and the environment hold. *)
Theorem inline_key_has_priority :
  forall (h : Host) (config : PaybinConfig.t) (sig : SignatureConfig.t)
         (k : string),
    PaybinConfig.signature config = Some sig ->
    SignatureConfig.key sig = Some k ->
    k <> "" ->
    loadSignaturePrivateKey h config = Ok (Some k).
Proof.
  intros h config sig k Hsig Hkey Hk.
  unfold loadSignaturePrivateKey.
  rewrite Hsig; cbn zeta. rewrite Hkey.
  destruct k as [|c rest]; [contradiction|].
  reflexivity.
Qed.

Lemma inline_key_has_priority_witness :
  loadSignaturePrivateKey Scenario.keyed_host
    (Scenario.config_with (Some Scenario.sig_all_three))
  = Ok (Some "INLINE-PEM").
Proof.
  apply (inline_key_has_priority Scenario.keyed_host
           (Scenario.config_with (Some Scenario.sig_all_three))
           Scenario.sig_all_three "INLINE-PEM").
  - reflexivity.
  - reflexivity.
  - discriminate.
Defined.

Example file_key_is_read_verbatim :
  loadSignaturePrivateKey Scenario.keyed_host
    (Scenario.config_with
       (Some {| SignatureConfig.key := None;
                SignatureConfig.path := Some "/etc/paybin/key.pem";
                SignatureConfig.env := Some "MY_KEY" |}))
  = Ok (Some "PEM-FROM-FILE").
Proof. reflexivity. Qed.

Example unreadable_file_fails :
  loadSignaturePrivateKey Scenario.keyed_host
    (Scenario.config_with
       (Some {| SignatureConfig.key := None;
                SignatureConfig.path := Some "/missing.pem";
                SignatureConfig.env := Some "MY_KEY" |}))
  = Throw (JsError
      "Failed to read signature private key from path: /missing.pem").
Proof. reflexivity. Qed.

Example no_signature_configuration_is_absent :
  loadSignaturePrivateKey Scenario.keyed_host (Scenario.config_with None)
  = Ok None.
Proof. reflexivity. Qed.

(** ** Request orchestrator: [post] and [signPayload] *)

Lemma signatureHeaders_trace_not_posted (h : Host) (this : PaybinClient.t)
  (payload : string) :
  filter is_posted (trace (signatureHeaders h this payload)) = [].
Proof.
  unfold signatureHeaders, signPayload.
  destruct (PaybinClient.signaturePrivateKey this) as [[|c k]|];
    cbn; try reflexivity.
  destruct (createSign_RSA_SHA512 h payload (String c k)); reflexivity.
Qed.

Lemma post_unfold (h : Host) (this : PaybinClient.t) (endpoint : string)
  (data : value) (t : list event) (hdrs : headers) :
  signatureHeaders h this (JSON_stringify data) = (t, Ok hdrs) ->
  post h this endpoint data
  = (let inst := PaybinClient.axiosInstance this in
     let sent := Posted (AxiosInstance.baseURL inst) endpoint data hdrs in
     match interceptor
             (axios_post h (AxiosInstance.baseURL inst)
                (AxiosInstance.headers inst) endpoint data hdrs) with
     | Ok response =>
         let body := AxiosResponse.data response in
         if strict_neq (PaybinResponse.code body) 200%float
         then ((t ++ [sent])%list,
               Throw (Thrown
                 {| PaybinError.message := PaybinResponse.message body;
                    PaybinError.code := CodeNumber (PaybinResponse.code body);
                    PaybinError.httpStatus := AxiosResponse.status response;
                    PaybinError.response := Some body |}))
         else ((t ++ [sent])%list, Ok body)
     | Throw e => ((t ++ [sent])%list, Throw e)
     end).
Proof.
  intros Hh.
  unfold post. rewrite Hh.
  unfold axiosInstance_post, bind, emit, lift, throw, ret.
  cbn zeta.
  destruct (interceptor _) as [response|e]; cbn.
  - destruct (strict_neq _ _); cbn; rewrite ?app_nil_r; reflexivity.
  - reflexivity.
Qed.

(** C4, as stated, at a response that the transport hands over as a
    rejection (HTTP 500): its envelope has code 200, yet [post] does not
    return it; and for an envelope with code 0 and an empty message, the
    error carries the HTTP status and ["An error occurred"] in place of the
    envelope's code and message. *)
Lemma rejected_response_is_thrown_whatever_its_code :
  strict_eq (PaybinResponse.code (Scenario.envelope 200%float "OK")) 200%float
  = true
  /\ outcome (post (Scenario.rejecting_host 500%float
                      (Some (Scenario.envelope 200%float "OK")))
                (Scenario.client_with None) "/v1/merchant/balances"
                Scenario.balance_body)
     = Throw (Thrown
         {| PaybinError.message := "OK";
            PaybinError.code := CodeNumber 200%float;
            PaybinError.httpStatus := 500%float;
            PaybinError.response := Some (Scenario.envelope 200%float "OK") |})
  /\ outcome (post (Scenario.rejecting_host 500%float
                      (Some (Scenario.envelope 0%float "")))
                (Scenario.client_with None) "/v1/merchant/balances"
                Scenario.balance_body)
     = Throw (Thrown
         {| PaybinError.message := "An error occurred";
            PaybinError.code := CodeNumber 500%float;
            PaybinError.httpStatus := 500%float;
            PaybinError.response := Some (Scenario.envelope 0%float "") |}).
Proof. repeat split. Qed.

(** C4, amended. Take a call of [post] whose request is handed to the
    transport. If the transport fulfils it with a response, [post] returns
    the envelope of that response exactly when the envelope's code is 200,
    and when the code is not 200 (whatever the HTTP status) it throws a
    [PaybinError] that carries the envelope's message and code, the HTTP
    status and the envelope. If the transport rejects it with a response,
    [post] throws a [PaybinError] whatever the envelope's code: it carries
    the HTTP status, the envelope's message unless that is empty or missing
    (then ["An error occurred"]) and the envelope's code unless that is 0,
    NaN or missing (then the HTTP status). [post] returns an envelope in no
    other case, and the request reaches the transport exactly once. *)
Theorem post_returns_envelope_iff_fulfilled_with_code_200 :
  forall (h : Host) (this : PaybinClient.t) (endpoint : string)
         (data : value) (t : list event) (hdrs : headers),
    signatureHeaders h this (JSON_stringify data) = (t, Ok hdrs) ->
    let settled :=
      axios_post h
        (AxiosInstance.baseURL (PaybinClient.axiosInstance this))
        (AxiosInstance.headers (PaybinClient.axiosInstance this))
        endpoint data hdrs in
    let result := outcome (post h this endpoint data) in
    (forall (status : number) (body : PaybinResponse.t),
        settled = Fulfilled status body ->
        (result = Ok body
         <-> strict_eq (PaybinResponse.code body) 200%float = true)
        /\ (strict_eq (PaybinResponse.code body) 200%float = false ->
            result
            = Throw (Thrown
                {| PaybinError.message := PaybinResponse.message body;
                   PaybinError.code := CodeNumber (PaybinResponse.code body);
                   PaybinError.httpStatus := status;
                   PaybinError.response := Some body |})))
    /\ (forall (status : number) (body : option PaybinResponse.t),
           settled = RejectedResponse status body ->
           result
           = Throw (Thrown
               {| PaybinError.message :=
                    or_else (option_map PaybinResponse.message body)
                      "An error occurred";
                  PaybinError.code :=
                    CodeNumber
                      match body with
                      | Some b => number_or (PaybinResponse.code b) status
                      | None => status
                      end;
                  PaybinError.httpStatus := status;
                  PaybinError.response := body |}))
    /\ (forall body : PaybinResponse.t,
           result = Ok body ->
           strict_eq (PaybinResponse.code body) 200%float = true
           /\ exists status : number, settled = Fulfilled status body)
    /\ filter is_posted (trace (post h this endpoint data))
       = [Posted (AxiosInstance.baseURL (PaybinClient.axiosInstance this))
            endpoint data hdrs].
Proof.
  intros h this endpoint data t hdrs Hh settled result.
  subst result.
  rewrite (post_unfold h this endpoint data t hdrs Hh).
  cbn zeta. fold settled.
  assert (Ht : filter is_posted t = []).
  { pose proof (signatureHeaders_trace_not_posted h this (JSON_stringify data))
      as Hf.
    rewrite Hh in Hf. exact Hf. }
  assert (Hsent : forall ev, filter is_posted (t ++ [ev]) = filter is_posted [ev])
    by (intros ev; rewrite filter_app, Ht; reflexivity).
  unfold strict_neq.
  destruct settled as [st b|st b| |msg];
    cbn [interceptor AxiosResponse.data AxiosResponse.status].
  - destruct (strict_eq (PaybinResponse.code b) 200%float) eqn:Hcode;
      cbn [negb outcome trace fst snd].
    + split; [|split; [|split]].
      * intros status body Heq. injection Heq as <- <-.
        rewrite Hcode. split; [tauto|discriminate].
      * discriminate.
      * intros body Heq. injection Heq as <-. split; [exact Hcode|].
        exists st. reflexivity.
      * apply Hsent.
    + split; [|split; [|split]].
      * intros status body Heq. injection Heq as <- <-.
        rewrite Hcode. split; [split; discriminate|reflexivity].
      * discriminate.
      * discriminate.
      * apply Hsent.
  - cbn [outcome trace fst snd].
    split; [discriminate|]. split; [|split; [discriminate|apply Hsent]].
    intros status body Heq. injection Heq as <- <-. reflexivity.
  - cbn [outcome trace fst snd].
    split; [discriminate|]. split; [discriminate|].
    split; [discriminate|apply Hsent].
  - cbn [outcome trace fst snd].
    split; [discriminate|]. split; [discriminate|].
    split; [discriminate|apply Hsent].
Qed.

Lemma post_returns_envelope_iff_fulfilled_with_code_200_witness :
  outcome (post (Scenario.replying_host 200%float
                   (Scenario.envelope 400%float "Invalid body hash"))
             (Scenario.client_with None) "/v1/merchant/balances"
             Scenario.balance_body)
  = Throw (Thrown
      {| PaybinError.message := "Invalid body hash";
         PaybinError.code := CodeNumber 400%float;
         PaybinError.httpStatus := 200%float;
         PaybinError.response :=
           Some (Scenario.envelope 400%float "Invalid body hash") |})
  /\ filter is_posted
       (trace (post (Scenario.replying_host 200%float
                       (Scenario.envelope 400%float "Invalid body hash"))
                 (Scenario.client_with None) "/v1/merchant/balances"
                 Scenario.balance_body))
     = [Posted "https://sandbox.paybin.io" "/v1/merchant/balances"
          Scenario.balance_body []].
Proof.
  destruct (post_returns_envelope_iff_fulfilled_with_code_200
              (Scenario.replying_host 200%float
                 (Scenario.envelope 400%float "Invalid body hash"))
              (Scenario.client_with None) "/v1/merchant/balances"
              Scenario.balance_body [] [] eq_refl)
    as (Hfulfilled & _ & _ & Hsent).
  split; [|exact Hsent].
  apply (Hfulfilled 200%float
           (Scenario.envelope 400%float "Invalid body hash") eq_refl).
  reflexivity.
Defined.

Example post_signs_then_sends_once :
  post (Scenario.replying_host 200%float (Scenario.envelope 200%float "OK"))
    (Scenario.client_with (Some "PEM")) "/v1/merchant/balances"
    Scenario.balance_body
  = ([ Signed (JSON_stringify Scenario.balance_body) "PEM";
       Posted "https://sandbox.paybin.io" "/v1/merchant/balances"
         Scenario.balance_body
         [("X-Signature",
           "sig(" ++ JSON_stringify Scenario.balance_body ++ ")")] ],
     Ok (Scenario.envelope 200%float "OK")).
Proof. vm_compute. reflexivity. Qed.

Lemma signatureHeaders_without_key (h : Host) (this : PaybinClient.t)
  (payload : string) :
  PaybinClient.signaturePrivateKey this = None ->
  signatureHeaders h this payload = ([], Ok []).
Proof.
  intros Hkey. unfold signatureHeaders. rewrite Hkey. reflexivity.
Qed.

(** C5. On a client whose resolved signing key is absent, [post] performs
    one effect only, the request itself, sent with no [X-Signature] header:
    the signer is not invoked, and [post] never ends with the plain [Error]
    of a missing key (or any other plain [Error]). [signPayload], called on
    such a client all the same, throws
    ["Signature private key is not configured"] without invoking the
    signer. *)
Theorem absent_key_skips_the_signer :
  forall (h : Host) (this : PaybinClient.t) (endpoint : string)
         (data : value) (payload : string),
    PaybinClient.signaturePrivateKey this = None ->
    trace (post h this endpoint data)
    = [Posted (AxiosInstance.baseURL (PaybinClient.axiosInstance this))
         endpoint data []]
    /\ (forall message : string,
           outcome (post h this endpoint data) <> Throw (JsError message))
    /\ signPayload h this payload
       = ([], Throw (JsError "Signature private key is not configured")).
Proof.
  intros h this endpoint data payload Hkey.
  rewrite (post_unfold h this endpoint data [] []
             (signatureHeaders_without_key h this _ Hkey)).
  cbn zeta.
  split; [|split].
  - destruct (interceptor _) as [response|e]; [|reflexivity].
    destruct (strict_neq _ _); reflexivity.
  - intros message.
    destruct (axios_post h _ _ endpoint data []) as [st b|st b| |msg];
      cbn [interceptor]; try discriminate.
    cbn [AxiosResponse.data AxiosResponse.status].
    destruct (strict_neq _ _); discriminate.
  - unfold signPayload. rewrite Hkey. reflexivity.
Qed.

Lemma absent_key_skips_the_signer_witness :
  trace (post (Scenario.replying_host 200%float
                 (Scenario.envelope 200%float "OK"))
           (Scenario.client_with None) "/v1/merchant/balances"
           Scenario.balance_body)
  = [Posted "https://sandbox.paybin.io" "/v1/merchant/balances"
       Scenario.balance_body []]
  /\ (forall message : string,
         outcome (post (Scenario.replying_host 200%float
                          (Scenario.envelope 200%float "OK"))
                    (Scenario.client_with None) "/v1/merchant/balances"
                    Scenario.balance_body)
         <> Throw (JsError message))
  /\ signPayload (Scenario.replying_host 200%float
                    (Scenario.envelope 200%float "OK"))
       (Scenario.client_with None) "payload"
     = ([], Throw (JsError "Signature private key is not configured")).
Proof.
  apply (absent_key_skips_the_signer
           (Scenario.replying_host 200%float
              (Scenario.envelope 200%float "OK"))
           (Scenario.client_with None) "/v1/merchant/balances"
           Scenario.balance_body "payload").
  reflexivity.
Defined.

(** ** paybin.ts *)

(** C10. [getEnvironment] answers [sandbox] exactly when the configured
    public key starts with ["sandbox_"], and [production] otherwise. The
    [environment] of the configuration plays no part: replacing it leaves
    the answer unchanged. So the answer can differ from the environment the
    client was built for: with the key ["sandbox_pk_1"] and
    [environment: 'production'] the client posts to
    [https://gateway.paybin.io] while [getEnvironment] answers [sandbox]. *)
Theorem getEnvironment_reads_only_the_public_key :
  forall (h : Host) (config : PaybinConfig.t) (sdk : Paybin.t),
    Paybin.new h config = Ok sdk ->
    Paybin.getEnvironment sdk
    = (if startsWith (PaybinConfig.publicKey config) "sandbox_"
       then sandbox else production)
    /\ (forall (environment : option Environment) (sdk' : Paybin.t),
           Paybin.new h (Scenario.set_environment config environment)
           = Ok sdk' ->
           Paybin.getEnvironment sdk' = Paybin.getEnvironment sdk)
    /\ exists sdk0 : Paybin.t,
         Paybin.new h Scenario.mislabelled_config = Ok sdk0
         /\ PaybinConfig.environment Scenario.mislabelled_config
            = Some production
         /\ AxiosInstance.baseURL
              (PaybinClient.axiosInstance (Paybin.client sdk0))
            = BASE_URLS production
         /\ Paybin.getEnvironment sdk0 = sandbox.
Proof.
  intros h config sdk Hnew.
  assert (Hkey : forall c s, Paybin.new h c = Ok s ->
                 getPublicKey (Paybin.client s) = PaybinConfig.publicKey c).
  { intros c s. unfold Paybin.new, Client.new.
    destruct (loadSignaturePrivateKey h c); [|discriminate].
    intros Hs. injection Hs as <-. reflexivity. }
  split; [|split].
  - unfold Paybin.getEnvironment. rewrite (Hkey _ _ Hnew). reflexivity.
  - intros environment sdk' Hnew'.
    unfold Paybin.getEnvironment.
    rewrite (Hkey _ _ Hnew), (Hkey _ _ Hnew'). reflexivity.
  - eexists. repeat split.
Qed.

Lemma getEnvironment_reads_only_the_public_key_witness :
  Paybin.new Scenario.bare_host Scenario.mislabelled_config
  = Ok {| Paybin.client :=
            {| PaybinClient.axiosInstance :=
                 {| AxiosInstance.baseURL := "https://gateway.paybin.io";
                    AxiosInstance.headers :=
                      [ ("Content-Type", "application/json");
                        ("X-Api-Key", "secret1") ];
                    AxiosInstance.timeout := 30000 |};
               PaybinClient.publicKey := "sandbox_pk_1";
               PaybinClient.secretKey := "secret1";
               PaybinClient.signaturePrivateKey := None |} |}
  /\ exists sdk : Paybin.t,
       Paybin.new Scenario.bare_host Scenario.mislabelled_config = Ok sdk
       /\ Paybin.getEnvironment sdk = sandbox.
Proof.
  split; [reflexivity|].
  eexists. split; [reflexivity|].
  apply (getEnvironment_reads_only_the_public_key Scenario.bare_host
           Scenario.mislabelled_config _ eq_refl).
Defined.

(** ** Request records *)

Lemma string_app_assoc (a b c : string) : (a ++ b) ++ c = a ++ b ++ c.
Proof.
  induction a as [|x a IH]; simpl.
  - reflexivity.
  - rewrite IH. reflexivity.
Qed.

Lemma hash_has_secret_suffix (a b c d e k : string) :
  exists prefix : string,
    VString (CryptoJS.MD5 (a ++ b ++ c ++ d ++ e ++ k))
    = VString (CryptoJS.MD5 (prefix ++ k)).
Proof.
  exists (a ++ b ++ c ++ d ++ e).
  rewrite !string_app_assoc. reflexivity.
Qed.

Lemma post_sends_its_data (h : Host) (this : PaybinClient.t)
  (endpoint : string) (data : value) :
  forall (b e : string) (body : value) (hdrs : headers),
    In (Posted b e body hdrs) (trace (post h this endpoint data)) ->
    body = data.
Proof.
  intros b e body hdrs.
  destruct (signatureHeaders h this (JSON_stringify data)) as [t r] eqn:Hh.
  assert (Ht : forall ev, In ev t -> is_signed ev = true).
  { revert Hh. unfold signatureHeaders, signPayload.
    destruct (PaybinClient.signaturePrivateKey this) as [[|c k]|]; cbn;
      try (intros Hh; injection Hh as <- <-; intros ev []).
    destruct (createSign_RSA_SHA512 h (JSON_stringify data) (String c k));
      cbn; intros Hh; injection Hh as <- <-;
      intros ev [<-|[]]; reflexivity. }
  destruct r as [hs|err].
  - rewrite (post_unfold h this endpoint data t hs Hh). cbn zeta.
    assert (Hin : In (Posted b e body hdrs)
                    (t ++ [Posted (AxiosInstance.baseURL
                                     (PaybinClient.axiosInstance this))
                             endpoint data hs]) -> body = data).
    { intros Hin. apply in_app_or in Hin as [Hin|[Heq|[]]].
      - apply Ht in Hin. discriminate.
      - injection Heq as _ _ <- _. reflexivity. }
    destruct (interceptor _) as [response|exn]; [|exact Hin].
    destruct (strict_neq _ _); exact Hin.
  - unfold post. rewrite Hh. cbn.
    intros Hin. apply Ht in Hin. discriminate.
Qed.

(** C8. Take any of the API operations (deposit address creation and
    lookup, withdrawal, verification start and confirm, the list of
    withdrawable assets, the balance query) and suppose the secret key is
    none of the strings the caller supplied (the public key and the string
    parameters). Then in the request record the operation builds, and which
    is the body of every request it hands to the transport, a field is
    either [Hash], holding the MD5 digest of a string that ends with the
    secret key, or a field other than [Hash] whose value is not the secret
    key. *)
Theorem secret_key_enters_body_only_through_hash :
  forall (h : Host) (client : PaybinClient.t) (call : ApiCall.t),
    ~ In (getSecretKey client) (ApiCall.supplied_strings client call) ->
    (forall (k : string) (v : value),
        In (k, v) (ApiCall.request client call) ->
        (k = "Hash"
         /\ exists prefix : string,
              v = VString (CryptoJS.MD5 (prefix ++ getSecretKey client)))
        \/ (k <> "Hash" /\ v <> VString (getSecretKey client)))
    /\ (forall (b e : string) (body : value) (hdrs : headers),
           In (Posted b e body hdrs) (trace (ApiCall.run h client call)) ->
           body = VObject (ApiCall.request client call)).
Proof.
  intros h client call Hsecret.
  split.
  - assert (Hstr : forall s, In s (ApiCall.supplied_strings client call) ->
                   VString s <> VString (getSecretKey client)).
    { intros s Hs Heq. injection Heq as Heq. subst s. exact (Hsecret Hs). }
    assert (Hnum : forall n, VNumber n <> VString (getSecretKey client))
      by discriminate.
    clear Hsecret. intros k v.
    destruct call as [[sym lab ref cb am cur red can]|[mem sym lab nid]
                     |p|p|p|r|];
      cbn [ApiCall.request];
      unfold DepositAPI.createAddress_request, DepositAPI.getAddress_request,
        WithdrawAPI.add_request, WithdrawAPI.verifyStart_request,
        WithdrawAPI.verifyConfirmAmount_request,
        WithdrawAPI.getWithdrawableAssets_request, BalanceAPI.get_request,
        spread_and;
      repeat match goal with x : option _ |- _ => destruct x end;
      cbn;
      repeat match goal with
             | |- context [if ?c then _ else _] => destruct c
             end;
      cbn in Hstr |- *;
      intros Hin;
      repeat match goal with
             | H : _ \/ _ |- _ => destruct H as [H|H]
             | H : False |- _ => destruct H
             | H : (_, _) = (_, _) |- _ => injection H as <- <-
             end;
      first
        [ left; split; [reflexivity|];
          solve [ apply hash_has_secret_suffix
                | apply (hash_has_secret_suffix "") ]
        | right; split; [discriminate|];
          first [ apply Hnum | apply Hstr; tauto ] ].
  - intros b e body hdrs.
    destruct call; cbn [ApiCall.run ApiCall.request];
      apply post_sends_its_data.
Qed.

Lemma secret_key_enters_body_only_through_hash_witness :
  (forall (k : string) (v : value),
      In (k, v)
        (ApiCall.request (Scenario.client_with None)
           (ApiCall.WithdrawAdd Scenario.withdraw_params)) ->
      (k = "Hash"
       /\ exists prefix : string,
            v = VString (CryptoJS.MD5 (prefix ++ "secret1")))
      \/ (k <> "Hash" /\ v <> VString "secret1"))
  /\ (forall (b e : string) (body : value) (hdrs : headers),
         In (Posted b e body hdrs)
           (trace (ApiCall.run Scenario.bare_host (Scenario.client_with None)
                     (ApiCall.WithdrawAdd Scenario.withdraw_params))) ->
         body = VObject (ApiCall.request (Scenario.client_with None)
                           (ApiCall.WithdrawAdd Scenario.withdraw_params))).
Proof.
  apply (secret_key_enters_body_only_through_hash Scenario.bare_host
           (Scenario.client_with None)
           (ApiCall.WithdrawAdd Scenario.withdraw_params)).
  cbn. intros H.
  repeat destruct H as [H|H]; try discriminate H; exact H.
Defined.

Example withdraw_request_fields :
  keys (WithdrawAPI.add_request (Scenario.client_with None)
          Scenario.withdraw_params)
  = ["PublicKey"; "ReferenceId"; "Amount"; "Symbol"; "NetworkId"; "Address";
     "Label"; "MerchantTransactionId"; "Hash"; "TfaCode"; "Email"]
  /\ lookup "Hash" (WithdrawAPI.add_request (Scenario.client_with None)
                      Scenario.withdraw_params)
     = Some (VString (CryptoJS.MD5 "ETH0.10xabcW-1secret1")).
Proof. split; vm_compute; reflexivity. Qed.

(** C9, as stated, at [createAddress({ ..., amount: 0, currency: 'USD' })]:
    the caller provided an amount, and the request has no [Amount] key. *)
Lemma zero_amount_is_left_out :
  DepositAPI.CreateAddressParams.amount Scenario.zero_amount_params
  = Some 0%float
  /\ keys (DepositAPI.createAddress_request (Scenario.client_with None)
             Scenario.zero_amount_params)
     = ["PublicKey"; "Symbol"; "Label"; "ReferenceId"; "CallbackUrl"; "Hash";
        "Currency"]
  /\ lookup "Amount"
       (DepositAPI.createAddress_request (Scenario.client_with None)
          Scenario.zero_amount_params)
     = None.
Proof. repeat split. Qed.

Lemma lookup_absent_iff (k : string) (o : object) :
  lookup k o = None <-> ~ In k (keys o).
Proof.
  induction o as [|[k' v] rest IH]; simpl.
  - split; [intros _ []|reflexivity].
  - destruct (String.eqb_spec k k') as [->|Hne].
    + split; [discriminate|]. intros Hn. exfalso. apply Hn. left; reflexivity.
    + rewrite IH. split.
      * intros Hn [Heq|Hin]; [apply Hne; symmetry; exact Heq|exact (Hn Hin)].
      * intros Hn Hin. apply Hn. right; exact Hin.
Qed.

Lemma lookup_present_iff (k : string) (o : object) :
  In k (keys o) <-> lookup k o <> None.
Proof.
  split.
  - intros Hin Hn. apply lookup_absent_iff in Hn. exact (Hn Hin).
  - intros Hl.
    destruct (in_dec string_dec k (keys o)) as [Hin|Hn]; [exact Hin|].
    apply lookup_absent_iff in Hn. contradiction.
Qed.

(** C9, amended. In the request of [createAddress], each optional field is
    a key exactly when the caller provided a truthy value for it: an amount
    other than [0] and [NaN], a currency, a non-empty redirect or cancel
    URL. A key that is present holds the value provided; an optional field
    that is absent or falsy is no key at all, and no field of the request
    holds [null] or [undefined]. *)
Theorem createAddress_optional_fields :
  forall (client : PaybinClient.t) (params : DepositAPI.CreateAddressParams.t),
    let request := DepositAPI.createAddress_request client params in
    lookup "Amount" request
    = match DepositAPI.CreateAddressParams.amount params with
      | Some a => if truthy_number a then Some (VNumber a) else None
      | None => None
      end
    /\ lookup "Currency" request
       = option_map (fun c => VString (FiatCurrency_string c))
           (DepositAPI.CreateAddressParams.currency params)
    /\ lookup "RedirectUrl" request
       = match DepositAPI.CreateAddressParams.redirectUrl params with
         | Some u => if truthy_string u then Some (VString u) else None
         | None => None
         end
    /\ lookup "CancelUrl" request
       = match DepositAPI.CreateAddressParams.cancelUrl params with
         | Some u => if truthy_string u then Some (VString u) else None
         | None => None
         end
    /\ (forall k : string, In k (keys request) <-> lookup k request <> None)
    /\ (forall (k : string) (v : value),
           In (k, v) request -> v <> VNull /\ v <> VUndefined).
Proof.
  intros client [sym lab ref cb am cur red can] request.
  subst request.
  unfold DepositAPI.createAddress_request, spread_and.
  cbn [DepositAPI.CreateAddressParams.amount
       DepositAPI.CreateAddressParams.currency
       DepositAPI.CreateAddressParams.redirectUrl
       DepositAPI.CreateAddressParams.cancelUrl].
  assert (Hcur : forall c, DepositAPI.truthy_currency c = true)
    by (intros []; reflexivity).
  destruct am as [a|]; [destruct (truthy_number a)|];
    (destruct cur as [c|]; [rewrite (Hcur c)|]);
    (destruct red as [r|]; [destruct (truthy_string r)|]);
    (destruct can as [u|]; [destruct (truthy_string u)|]);
    cbn zeta;
    (split; [reflexivity|]); (split; [reflexivity|]);
    (split; [reflexivity|]); (split; [reflexivity|]);
    (split;
     [ intros k; apply lookup_present_iff
     | intros k v Hin; cbn in Hin;
       repeat match goal with
              | H : _ \/ _ |- _ => destruct H as [H|H]
              | H : False |- _ => destruct H
              | H : (_, _) = (_, _) |- _ => injection H as <- <-
              end;
       split; discriminate ]).
Qed.

(** ** The rendering of amounts *)




















Example decimal_exponents :
  map (fun x => match Prim2SF x with
                | S754_finite _ m e => decimal_exponent m e
                | _ => 0%Z
                end)
    [0.1; 1e-7; 0.000001; 999999999999999900000; 1e21; 100]%float
  = [0; -6; -5; 21; 22; 3]%Z.
Proof. vm_compute. reflexivity. Qed.

(** ** The printed decimal and the number

    [shortest m e = (s, p)] gives the decimal [s * 10^p] that
    [Number::toString] prints for the number [m * 2^e]. *)

Section PrintedDecimal.

Local Open Scope Z_scope.

(** *** The search returns a candidate or the exact expansion *)

















Local Open Scope Q_scope.

(** *** Powers of ten and two as fractions of integers *)











Local Close Scope Q_scope.


End PrintedDecimal.














(* ===================================================================== *)
(** * Further properties *)
(* ===================================================================== *)

(** ** More on the hash engine *)

(** X1. The three other request hashes have the format of the deposit
    hash: 32 characters, all lowercase hexadecimal digits. *)
Theorem request_hashes_are_32_lowercase_hex :
  forall (w : WithdrawHashInput.t) (s : VerifyStartHashInput.t)
         (c : VerifyConfirmHashInput.t) (secretKey : string),
    (String.length (Hash.generateWithdrawHash w secretKey) = 32%nat
     /\ Bytes.all_lower_hex (Hash.generateWithdrawHash w secretKey) = true)
    /\ (String.length (Hash.generateVerifyStartHash s secretKey) = 32%nat
        /\ Bytes.all_lower_hex (Hash.generateVerifyStartHash s secretKey)
           = true)
    /\ (String.length (Hash.generateVerifyConfirmHash c secretKey) = 32%nat
        /\ Bytes.all_lower_hex (Hash.generateVerifyConfirmHash c secretKey)
           = true).
Proof.
  intros w s c secretKey.
  unfold Hash.generateWithdrawHash, Hash.generateVerifyStartHash,
    Hash.generateVerifyConfirmHash.
  repeat split; first [apply MD5_length | apply MD5_lower_hex].
Qed.

Lemma sha256_block_length (H block : list Z) :
  List.length H = 8%nat -> List.length (CryptoJS.sha256_block H block) = 8%nat.
Proof.
  intros HH. unfold CryptoJS.sha256_block.
  destruct (fold_left _ _ _) as [[[[[[[a b] c] d] e] f] g] h].
  rewrite length_map, length_combine, HH. reflexivity.
Qed.

Lemma fold_left_keeps_length (A B : Type) (f : list A -> B -> list A)
  (n : nat) :
  (forall (H : list A) (b : B),
      List.length H = n -> List.length (f H b) = n) ->
  forall (blocks : list B) (H : list A),
    List.length H = n -> List.length (fold_left f blocks H) = n.
Proof.
  intros Hf. induction blocks as [|b rest IH]; intros H HH; cbn [fold_left].
  - exact HH.
  - apply IH. apply Hf. exact HH.
Qed.

Lemma bytes_be_flat_length (l : list Z) :
  List.length (flat_map Word32.bytes_be l) = (4 * List.length l)%nat.
Proof.
  induction l as [|x l IH]; cbn [flat_map List.length].
  - reflexivity.
  - rewrite length_app, IH. cbn [Word32.bytes_be List.length]. lia.
Qed.

Lemma sha256_digest_length (msg : list Z) :
  List.length (CryptoJS.sha256_digest msg) = 32%nat.
Proof.
  unfold CryptoJS.sha256_digest.
  rewrite bytes_be_flat_length.
  rewrite (fold_left_keeps_length Z (list Z) CryptoJS.sha256_block 8
             sha256_block_length (Bytes.chunks 64 (CryptoJS.sha256_pad msg))
             CryptoJS.sha256_init eq_refl).
  reflexivity.
Qed.

Lemma HmacSHA256_length (message key : string) :
  String.length (CryptoJS.HmacSHA256 message key) = 64%nat.
Proof.
  unfold CryptoJS.HmacSHA256, CryptoJS.hmac_sha256_digest.
  rewrite hex_length, sha256_digest_length. reflexivity.
Qed.

Lemma HmacSHA256_lower_hex (message key : string) :
  Bytes.all_lower_hex (CryptoJS.HmacSHA256 message key) = true.
Proof. apply hex_all_lower. Qed.

(** X2. A webhook signature is 64 characters long, all of them lowercase
    hexadecimal digits. *)
Theorem webhook_signature_is_64_lowercase_hex :
  forall payload secretKey : string,
    String.length (Hash.generateWebhookSignature payload secretKey) = 64%nat
    /\ Bytes.all_lower_hex (Hash.generateWebhookSignature payload secretKey)
       = true.
Proof.
  intros payload secretKey. unfold Hash.generateWebhookSignature.
  split; [apply HmacSHA256_length|apply HmacSHA256_lower_hex].
Qed.

(** X3. The comparison of signatures is exact: a signature that is not 64
    characters long, or that has a character other than a lowercase
    hexadecimal digit (an uppercase rendering of the right digest, say),
    verifies for no payload and no key. *)
Theorem malformed_signature_never_verifies :
  forall payload signature secretKey : string,
    String.length signature <> 64%nat
    \/ Bytes.all_lower_hex signature = false ->
    Hash.verifyWebhookSignature payload signature secretKey = false
    /\ Hash.verifyWebhook payload signature secretKey = false.
Proof.
  intros payload signature secretKey Hbad.
  assert (H : Hash.verifyWebhookSignature payload signature secretKey = false).
  { unfold Hash.verifyWebhookSignature.
    apply String.eqb_neq. intros ->.
    destruct Hbad as [Hlen|Hhex].
    - apply Hlen. apply HmacSHA256_length.
    - rewrite HmacSHA256_lower_hex in Hhex. discriminate. }
  split; [exact H|exact H].
Qed.

Lemma malformed_signature_never_verifies_witness :
  (Hash.verifyWebhookSignature "{}" "" "secret1" = false
   /\ Hash.verifyWebhook "{}" "" "secret1" = false)
  /\ (Hash.verifyWebhookSignature "{}"
        "F7BC83F430538424B13298E6AA6FB143EF4D59A14946175997479DBC2D1A3CD8"
        "secret1" = false
      /\ Hash.verifyWebhook "{}"
           "F7BC83F430538424B13298E6AA6FB143EF4D59A14946175997479DBC2D1A3CD8"
           "secret1" = false).
Proof.
  split.
  - apply (malformed_signature_never_verifies "{}" "" "secret1").
    left. discriminate.
  - apply (malformed_signature_never_verifies "{}"
             "F7BC83F430538424B13298E6AA6FB143EF4D59A14946175997479DBC2D1A3CD8"
             "secret1").
    right. reflexivity.
Defined.

(** X4. The hashed strings have no field boundaries: characters moved from
    the end of one field to the start of the next leave the hash
    unchanged. *)
Theorem request_hashes_have_no_field_boundaries :
  (forall (publicKey : string) (symbol : CryptoSymbol)
          (label x referenceId callbackUrl secretKey : string),
      Hash.generateDepositHash
        {| CreateDepositHashInput.publicKey := publicKey;
           CreateDepositHashInput.symbol := symbol;
           CreateDepositHashInput.label := label ++ x;
           CreateDepositHashInput.referenceId := referenceId;
           CreateDepositHashInput.callbackUrl := callbackUrl |} secretKey
      = Hash.generateDepositHash
          {| CreateDepositHashInput.publicKey := publicKey;
             CreateDepositHashInput.symbol := symbol;
             CreateDepositHashInput.label := label;
             CreateDepositHashInput.referenceId := x ++ referenceId;
             CreateDepositHashInput.callbackUrl := callbackUrl |} secretKey)
  /\ (forall (symbol : CryptoSymbol) (amount : number)
             (address x merchantTransactionId secretKey : string),
         Hash.generateWithdrawHash
           {| WithdrawHashInput.symbol := symbol;
              WithdrawHashInput.amount := amount;
              WithdrawHashInput.address := address ++ x;
              WithdrawHashInput.merchantTransactionId :=
                merchantTransactionId |} secretKey
         = Hash.generateWithdrawHash
             {| WithdrawHashInput.symbol := symbol;
                WithdrawHashInput.amount := amount;
                WithdrawHashInput.address := address;
                WithdrawHashInput.merchantTransactionId :=
                  x ++ merchantTransactionId |} secretKey)
  /\ Hash.generateDepositHash
       {| CreateDepositHashInput.publicKey := "pub1";
          CreateDepositHashInput.symbol := ETH;
          CreateDepositHashInput.label := "LR";
          CreateDepositHashInput.referenceId := "1";
          CreateDepositHashInput.callbackUrl := "https://x/y" |} "secret1"
     = Hash.generateDepositHash Scenario.depositInput "secret1".
Proof.
  split; [|split].
  - intros. unfold Hash.generateDepositHash, Hash.depositHashString.
    cbn [CreateDepositHashInput.publicKey CreateDepositHashInput.symbol
         CreateDepositHashInput.label CreateDepositHashInput.referenceId
         CreateDepositHashInput.callbackUrl].
    rewrite !string_app_assoc. reflexivity.
  - intros. unfold Hash.generateWithdrawHash, Hash.withdrawHashString.
    cbn [WithdrawHashInput.symbol WithdrawHashInput.amount
         WithdrawHashInput.address WithdrawHashInput.merchantTransactionId].
    rewrite !string_app_assoc. reflexivity.
  - vm_compute. reflexivity.
Qed.

(** ** More on [post] *)

(** What [post] does, in order, by the signing key of the client. *)
Lemma post_trace (h : Host) (this : PaybinClient.t) (endpoint : string)
  (data : value) :
  trace (post h this endpoint data)
  = let base := AxiosInstance.baseURL (PaybinClient.axiosInstance this) in
    match if_truthy (PaybinClient.signaturePrivateKey this) with
    | None => [Posted base endpoint data []]
    | Some key =>
        Signed (JSON_stringify data) key ::
        match createSign_RSA_SHA512 h (JSON_stringify data) key with
        | Ok signature =>
            [Posted base endpoint data [("X-Signature", signature)]]
        | Throw _ => []
        end
    end.
Proof.
  unfold post, signatureHeaders, signPayload, axiosInstance_post.
  destruct (PaybinClient.signaturePrivateKey this) as [[|c k]|];
    cbn [if_truthy truthy_opt truthy_string].
  - cbn.
    destruct (interceptor _) as [r|e]; cbn; [|reflexivity].
    destruct (strict_neq _ _); reflexivity.
  - cbn.
    destruct (createSign_RSA_SHA512 h (JSON_stringify data) (String c k))
      as [s|e]; cbn; [|reflexivity].
    destruct (interceptor _) as [r|e]; cbn; [|reflexivity].
    destruct (strict_neq _ _); reflexivity.
  - cbn.
    destruct (interceptor _) as [r|e]; cbn; [|reflexivity].
    destruct (strict_neq _ _); reflexivity.
Qed.


(** X5. With a signing key, [post] signs [JSON.stringify(data)] first and
    then sends [data] once, with the signature as the only per-request
    header; when the signer throws, [post] throws the same error and sends
    nothing. *)
Theorem post_signs_the_serialized_body_before_sending :
  forall (h : Host) (this : PaybinClient.t) (endpoint : string)
         (data : value) (key : string),
    PaybinClient.signaturePrivateKey this = Some key ->
    truthy_string key = true ->
    match createSign_RSA_SHA512 h (JSON_stringify data) key with
    | Ok signature =>
        trace (post h this endpoint data)
        = [ Signed (JSON_stringify data) key;
            Posted (AxiosInstance.baseURL (PaybinClient.axiosInstance this))
              endpoint data [("X-Signature", signature)] ]
    | Throw e =>
        post h this endpoint data = ([Signed (JSON_stringify data) key], Throw e)
    end.
Proof.
  intros h this endpoint data key Hkey Htruthy.
  pose proof (post_trace h this endpoint data) as Ht.
  rewrite Hkey in Ht. cbn [if_truthy] in Ht. rewrite Htruthy in Ht.
  cbn zeta in Ht.
  destruct (createSign_RSA_SHA512 h (JSON_stringify data) key) as [s|e] eqn:Hs.
  - exact Ht.
  - unfold post, signatureHeaders, signPayload.
    rewrite Hkey. cbn [if_truthy truthy_opt]. rewrite Htruthy.
    cbn. rewrite Hs. reflexivity.
Qed.

Lemma post_signs_the_serialized_body_before_sending_witness :
  trace (post (Scenario.replying_host 200%float
                 (Scenario.envelope 200%float "OK"))
           (Scenario.client_with (Some "PEM")) "/v1/merchant/balances"
           Scenario.balance_body)
  = [ Signed (JSON_stringify Scenario.balance_body) "PEM";
      Posted "https://sandbox.paybin.io" "/v1/merchant/balances"
        Scenario.balance_body
        [("X-Signature",
          "sig(" ++ JSON_stringify Scenario.balance_body ++ ")")] ]
  /\ post Scenario.unsigned_host (Scenario.client_with (Some "PEM"))
       "/v1/merchant/balances" Scenario.balance_body
     = ([Signed (JSON_stringify Scenario.balance_body) "PEM"],
        Throw (JsError "bad PEM")).
Proof.
  split.
  - exact (post_signs_the_serialized_body_before_sending
             (Scenario.replying_host 200%float
                (Scenario.envelope 200%float "OK"))
             (Scenario.client_with (Some "PEM")) "/v1/merchant/balances"
             Scenario.balance_body "PEM" eq_refl eq_refl).
  - exact (post_signs_the_serialized_body_before_sending
             Scenario.unsigned_host
             (Scenario.client_with (Some "PEM")) "/v1/merchant/balances"
             Scenario.balance_body "PEM" eq_refl eq_refl).
Defined.



(** ** More on the operations *)

Lemma run_is_post (h : Host) (client : PaybinClient.t) (call : ApiCall.t) :
  ApiCall.run h client call
  = post h client (ApiCall.endpoint call)
      (VObject (ApiCall.request client call)).
Proof. destruct call; reflexivity. Qed.

(** X7. Every operation hands at most one request to the transport; the
    request goes to the base URL of the client and to the fixed path of
    the operation, and its body is the request record of the operation. *)
Theorem operations_post_to_their_endpoint :
  forall (h : Host) (client : PaybinClient.t) (call : ApiCall.t),
    (List.length (filter is_posted (trace (ApiCall.run h client call)))
     <= 1)%nat
    /\ forall (b e : string) (body : value) (hdrs : headers),
         In (Posted b e body hdrs) (trace (ApiCall.run h client call)) ->
         b = AxiosInstance.baseURL (PaybinClient.axiosInstance client)
         /\ e = ApiCall.endpoint call
         /\ body = VObject (ApiCall.request client call).
Proof.
  intros h client call.
  rewrite run_is_post, post_trace. cbn zeta.
  destruct (if_truthy (PaybinClient.signaturePrivateKey client)) as [key|].
  - destruct (createSign_RSA_SHA512 h _ key) as [s|e0].
    + split; [cbn; lia|].
      intros b e body hdrs [H|[H|[]]]; [discriminate H|].
      injection H as <- <- <- <-. repeat split.
    + split; [cbn; lia|].
      intros b e body hdrs [H|[]]. discriminate H.
  - split; [cbn; lia|].
    intros b e body hdrs [H|[]].
    injection H as <- <- <- <-. repeat split.
Qed.

(** ** More on the key resolver *)

Lemma if_truthy_Some (x : option string) (s : string) :
  if_truthy x = Some s <-> x = Some s /\ truthy_string s = true.
Proof.
  destruct x as [t|]; cbn.
  - destruct (truthy_string t) eqn:Ht.
    + split.
      * intros H. injection H as <-. split; [reflexivity|exact Ht].
      * intros [H _]. exact H.
    + split; [discriminate|].
      intros [H Hs]. injection H as <-. rewrite Hs in Ht. discriminate.
  - split; [discriminate|intros [H _]; discriminate H].
Qed.

(** X8. An empty inline key and an empty file path are passed over as if
    they were absent: the resolver goes on to the next source. *)
Theorem empty_key_and_path_are_passed_over :
  forall (h : Host) (publicKey secretKey : string)
         (environment : option Environment) (path env : option string),
    loadSignaturePrivateKey h
      {| PaybinConfig.publicKey := publicKey;
         PaybinConfig.secretKey := secretKey;
         PaybinConfig.environment := environment;
         PaybinConfig.signature :=
           Some {| SignatureConfig.key := Some EmptyString;
                   SignatureConfig.path := path;
                   SignatureConfig.env := env |} |}
    = loadSignaturePrivateKey h
        {| PaybinConfig.publicKey := publicKey;
           PaybinConfig.secretKey := secretKey;
           PaybinConfig.environment := environment;
           PaybinConfig.signature :=
             Some {| SignatureConfig.key := None;
                     SignatureConfig.path := path;
                     SignatureConfig.env := env |} |}
    /\ loadSignaturePrivateKey h
         {| PaybinConfig.publicKey := publicKey;
            PaybinConfig.secretKey := secretKey;
            PaybinConfig.environment := environment;
            PaybinConfig.signature :=
              Some {| SignatureConfig.key := None;
                      SignatureConfig.path := Some EmptyString;
                      SignatureConfig.env := env |} |}
       = loadSignaturePrivateKey h
           {| PaybinConfig.publicKey := publicKey;
              PaybinConfig.secretKey := secretKey;
              PaybinConfig.environment := environment;
              PaybinConfig.signature :=
                Some {| SignatureConfig.key := None;
                        SignatureConfig.path := None;
                        SignatureConfig.env := env |} |}.
Proof. intros. split; reflexivity. Qed.

Lemma resolved_key_is_empty_iff (h : Host) (config : PaybinConfig.t) :
  loadSignaturePrivateKey h config = Ok (Some EmptyString)
  <-> exists (sig : SignatureConfig.t) (p : string),
        PaybinConfig.signature config = Some sig
        /\ if_truthy (SignatureConfig.key sig) = None
        /\ if_truthy (SignatureConfig.path sig) = Some p
        /\ readFileSync h p = Some EmptyString.
Proof.
  unfold loadSignaturePrivateKey.
  destruct (PaybinConfig.signature config) as [sig|].
  - cbn zeta.
    destruct (if_truthy (SignatureConfig.key sig)) as [k|] eqn:Hk.
    + pose proof (proj1 (if_truthy_Some _ _) Hk) as [_ Hk'].
      split.
      * intros H. injection H as ->. discriminate Hk'.
      * intros (sig' & p & Hs & Hn & _).
        injection Hs as <-. rewrite Hk in Hn. discriminate Hn.
    + destruct (if_truthy (SignatureConfig.path sig)) as [p|] eqn:Hp.
      * destruct (readFileSync h p) as [contents|] eqn:Hr.
        -- split.
           ++ intros H. injection H as ->.
              exists sig, p. repeat split; assumption.
           ++ intros (sig' & p' & Hs & _ & Hp' & Hr').
              injection Hs as <-. rewrite Hp in Hp'. injection Hp' as <-.
              rewrite Hr in Hr'. injection Hr' as ->. reflexivity.
        -- split; [discriminate|].
           intros (sig' & p' & Hs & _ & Hp' & Hr').
           injection Hs as <-. rewrite Hp in Hp'. injection Hp' as <-.
           rewrite Hr in Hr'. discriminate Hr'.
      * split.
        -- destruct (if_truthy (process_env h _)) as [v|] eqn:Hv.
           ++ apply if_truthy_Some in Hv as [_ Hv].
              intros H. injection H as ->. discriminate Hv.
           ++ destruct (truthy_opt truthy_string (SignatureConfig.env sig));
                discriminate.
        -- intros (sig' & p' & Hs & _ & Hp' & _).
           injection Hs as <-. rewrite Hp in Hp'. discriminate Hp'.
  - split; [discriminate|].
    intros (sig & p & Hs & _). discriminate Hs.
Qed.

(** X9. The key of a constructed client is the empty string exactly when
    it was read from an empty key file; such a client sends its requests
    without [X-Signature] and without any error: signing is silently
    off. *)
Theorem empty_key_file_disables_signing :
  forall (h : Host) (config : PaybinConfig.t) (c : PaybinClient.t),
    Client.new h config = Ok c ->
    (PaybinClient.signaturePrivateKey c = Some EmptyString
     <-> exists (sig : SignatureConfig.t) (p : string),
           PaybinConfig.signature config = Some sig
           /\ if_truthy (SignatureConfig.key sig) = None
           /\ if_truthy (SignatureConfig.path sig) = Some p
           /\ readFileSync h p = Some EmptyString)
    /\ (PaybinClient.signaturePrivateKey c = Some EmptyString ->
        forall (endpoint : string) (data : value),
          trace (post h c endpoint data)
          = [Posted (AxiosInstance.baseURL (PaybinClient.axiosInstance c))
               endpoint data []]).
Proof.
  intros h config c Hnew. split.
  - rewrite <- resolved_key_is_empty_iff.
    unfold Client.new in Hnew.
    destruct (loadSignaturePrivateKey h config) as [k|e]; [|discriminate].
    injection Hnew as <-. cbn [PaybinClient.signaturePrivateKey].
    split; [intros ->; reflexivity|intros H; injection H as ->; reflexivity].
  - intros Hkey endpoint data.
    rewrite post_trace, Hkey. reflexivity.
Qed.

Lemma empty_key_file_disables_signing_witness :
  exists c : PaybinClient.t,
    Client.new Scenario.hollow_host
      (Scenario.config_with
         (Some {| SignatureConfig.key := None;
                  SignatureConfig.path := Some "/etc/paybin/key.pem";
                  SignatureConfig.env := None |})) = Ok c
    /\ PaybinClient.signaturePrivateKey c = Some EmptyString
    /\ trace (post Scenario.hollow_host c "/v1/merchant/balances"
                Scenario.balance_body)
       = [Posted "https://sandbox.paybin.io" "/v1/merchant/balances"
            Scenario.balance_body []].
Proof.
  eexists. split; [reflexivity|].
  split; [reflexivity|].
  refine (proj2 (empty_key_file_disables_signing Scenario.hollow_host
                   (Scenario.config_with
                      (Some {| SignatureConfig.key := None;
                               SignatureConfig.path :=
                                 Some "/etc/paybin/key.pem";
                               SignatureConfig.env := None |}))
                   _ eq_refl) eq_refl "/v1/merchant/balances"
            Scenario.balance_body).
Defined.

(** ** The webhook middleware *)

Lemma webhook_signature_truthy (payload secretKey : string) :
  if_truthy (Some (Hash.generateWebhookSignature payload secretKey))
  = Some (Hash.generateWebhookSignature payload secretKey).
Proof.
  pose proof (HmacSHA256_length payload secretKey) as Hlen.
  unfold Hash.generateWebhookSignature. cbn [if_truthy].
  destruct (CryptoJS.HmacSHA256 payload secretKey); [discriminate Hlen|].
  reflexivity.
Qed.

(** X10. The middleware calls [next] only for a request whose signature
    header is the HMAC-SHA256 of the raw body under the secret key and
    whose raw body parses; the body it passes on is the parsed payload. *)
Theorem middleware_calls_next_only_for_verified_payloads :
  forall (JSON_parse : string -> result value) (secretKey : string)
         (req : Webhook.Request.t) (next : value -> result unit)
         (body : value),
    In (Webhook.NextCalled body)
       (Webhook.createWebhookMiddleware JSON_parse secretKey req next) ->
    exists signature : string,
      Webhook.Request.signatureHeader req = Some signature
      /\ signature
         = Hash.generateWebhookSignature (Webhook.Request.rawBody req)
             secretKey
      /\ Hash.verifyWebhook (Webhook.Request.rawBody req) signature secretKey
         = true
      /\ JSON_parse (Webhook.Request.rawBody req) = Ok body.
Proof.
  intros JSON_parse secretKey req next body.
  unfold Webhook.createWebhookMiddleware, Webhook.parseDepositWebhook.
  destruct (if_truthy (Webhook.Request.signatureHeader req)) as [sg|] eqn:Hh.
  - apply if_truthy_Some in Hh as [Hh _].
    destruct (Hash.verifyWebhook (Webhook.Request.rawBody req) sg secretKey)
      eqn:Hv; cbn [negb].
    + destruct (JSON_parse (Webhook.Request.rawBody req)) as [b|e] eqn:Hp.
      * assert (Hb : Webhook.NextCalled body = Webhook.NextCalled b ->
                     exists signature : string,
                       Webhook.Request.signatureHeader req = Some signature
                       /\ signature
                          = Hash.generateWebhookSignature
                              (Webhook.Request.rawBody req) secretKey
                       /\ Hash.verifyWebhook (Webhook.Request.rawBody req)
                            signature secretKey = true
                       /\ Ok b = Ok body).
        { intros Heq. injection Heq as ->. exists sg.
          split; [exact Hh|]. split; [|split; [exact Hv|reflexivity]].
          unfold Hash.verifyWebhook, Hash.verifyWebhookSignature in Hv.
          apply String.eqb_eq in Hv. exact Hv. }
        destruct (next b) as [u|e].
        -- intros [H|[]]. apply Hb. symmetry. exact H.
        -- intros [H|[H|[]]]; [|discriminate H].
           apply Hb. symmetry. exact H.
      * intros [H|[]]. discriminate H.
    + intros [H|[]]. discriminate H.
  - intros [H|[]]. discriminate H.
Qed.

Lemma middleware_calls_next_only_for_verified_payloads_witness :
  exists signature : string,
    Webhook.Request.signatureHeader Scenario.signed_request = Some signature
    /\ signature
       = Hash.generateWebhookSignature
           (Webhook.Request.rawBody Scenario.signed_request) "secret1"
    /\ Hash.verifyWebhook (Webhook.Request.rawBody Scenario.signed_request)
         signature "secret1" = true
    /\ Scenario.toy_parse (Webhook.Request.rawBody Scenario.signed_request)
       = Ok (VObject []).
Proof.
  apply (middleware_calls_next_only_for_verified_payloads
           Scenario.toy_parse "secret1" Scenario.signed_request
           (fun _ => Ok tt) (VObject [])).
  vm_compute. left. reflexivity.
Defined.

(** X11. A request whose header is the signature generated for its raw
    body under the same key is never answered 401: the middleware parses
    the body and calls [next]; a body that does not parse, and also a
    failure of the rest of the chain, is answered 400. *)
Theorem signed_payload_passes_the_signature_check :
  forall (JSON_parse : string -> result value) (secretKey raw : string)
         (next : value -> result unit),
    Webhook.createWebhookMiddleware JSON_parse secretKey
      {| Webhook.Request.signatureHeader :=
           Some (Hash.generateWebhookSignature raw secretKey);
         Webhook.Request.rawBody := raw |} next
    = match JSON_parse raw with
      | Throw _ => [Webhook.Replied 400 "Invalid payload format"]
      | Ok body =>
          match next body with
          | Ok _ => [Webhook.NextCalled body]
          | Throw _ =>
              [Webhook.NextCalled body;
               Webhook.Replied 400 "Invalid payload format"]
          end
      end.
Proof.
  intros JSON_parse secretKey raw next.
  unfold Webhook.createWebhookMiddleware, Webhook.parseDepositWebhook.
  cbn [Webhook.Request.signatureHeader Webhook.Request.rawBody].
  rewrite webhook_signature_truthy.
  unfold Hash.verifyWebhook, Hash.verifyWebhookSignature,
    Hash.generateWebhookSignature.
  rewrite String.eqb_refl. reflexivity.
Qed.

(** ** [getBySymbol] and [getAddress] *)

(** X12. [getBySymbol] performs the balance query and nothing else; it
    throws what the query throws, and otherwise returns the property
    [<symbol>Balance] of the response data when that property is truthy,
    and [0] in every other case (no data, no such property, a balance of
    [0], [NaN], [null] or the empty string). *)
Theorem getBySymbol_defaults_to_zero :
  forall (h : Host) (client : PaybinClient.t)
         (symbol : BalanceAPI.BalanceSymbol),
    trace (BalanceAPI.getBySymbol h client symbol)
    = trace (BalanceAPI.get h client)
    /\ match outcome (BalanceAPI.get h client) with
       | Throw e => outcome (BalanceAPI.getBySymbol h client symbol) = Throw e
       | Ok response =>
           exists v : value,
             outcome (BalanceAPI.getBySymbol h client symbol) = Ok v
             /\ ((truthy_value v = true
                  /\ exists props : object,
                       PaybinResponse.data response = VObject props
                       /\ lookup (BalanceAPI.balanceKey symbol) props = Some v)
                 \/ (v = VNumber 0%float
                     /\ truthy_value
                          (optional_property (PaybinResponse.data response)
                             (BalanceAPI.balanceKey symbol)) = false))
       end.
Proof.
  intros h client symbol. unfold BalanceAPI.getBySymbol, bind, ret.
  destruct (BalanceAPI.get h client) as [t [response|e]]; cbn [trace outcome fst snd].
  - split; [apply List.app_nil_r|].
    eexists. split; [reflexivity|].
    unfold value_or.
    destruct (truthy_value
                (optional_property (PaybinResponse.data response)
                   (BalanceAPI.balanceKey symbol))) eqn:Ht.
    + left. split; [exact Ht|].
      unfold optional_property in *.
      destruct (PaybinResponse.data response) as [| | | | | |props];
        try discriminate Ht.
      exists props. split; [reflexivity|].
      destruct (lookup (BalanceAPI.balanceKey symbol) props);
        [reflexivity|discriminate Ht].
    + right. split; reflexivity.
  - split; reflexivity.
Qed.

(** X13. In the request of [getAddress], [Label] is a key exactly when a
    non-empty label was given and [NetworkId] exactly when a network was
    given (no network identifier is [0]); a key that is present holds the
    value given, and no field holds [null] or [undefined]. *)
Theorem getAddress_optional_fields :
  forall (client : PaybinClient.t) (params : DepositAPI.GetAddressParams.t),
    let request := DepositAPI.getAddress_request client params in
    lookup "Label" request
    = match DepositAPI.GetAddressParams.label params with
      | Some l => if truthy_string l then Some (VString l) else None
      | None => None
      end
    /\ lookup "NetworkId" request
       = option_map (fun n => VNumber (NetworkId_number n))
           (DepositAPI.GetAddressParams.networkId params)
    /\ (forall k : string, In k (keys request) <-> lookup k request <> None)
    /\ (forall (k : string) (v : value),
           In (k, v) request -> v <> VNull /\ v <> VUndefined).
Proof.
  intros client [member sym lab net] request. subst request.
  unfold DepositAPI.getAddress_request, spread_and.
  cbn [DepositAPI.GetAddressParams.memberId DepositAPI.GetAddressParams.symbol
       DepositAPI.GetAddressParams.label
       DepositAPI.GetAddressParams.networkId].
  assert (Hnet : forall n, DepositAPI.truthy_networkId n = true)
    by (intros []; reflexivity).
  destruct lab as [l|]; [destruct (truthy_string l)|];
    (destruct net as [n|]; [rewrite (Hnet n)|]);
    (split; [reflexivity|]); (split; [reflexivity|]);
    (split;
     [ intros k; apply lookup_present_iff
     | intros k v Hin; cbn in Hin;
       repeat match goal with
              | H : _ \/ _ |- _ => destruct H as [H|H]
              | H : False |- _ => destruct H
              | H : (_, _) = (_, _) |- _ => injection H as <- <-
              end;
       split; discriminate ]).
Qed.
